(** * Notification service: record store, providers, dispatch queue

    A shallow embedding of the notification dispatch engine
    (src/services/DatabaseService.js, src/services/NotificationService.js,
    the four providers and the routes of src/server.js) together with the
    properties its specification states about it.

    Conventions of the embedding.
    - A JavaScript value that may be [undefined]/[null] is an [option];
      where the code reads a member of such a value, and so distinguishes
      the two from an object, it is a [Ref].
    - A fulfilled promise / normal return is [Returned v]; a rejected
      promise / [throw] is [Threw e].  Where every error the code can meet
      is an [Error] object, [e] is its [message] ([Completion]); where the
      error comes from outside (an external client), [e] is a [Thrown].
    - A text is a [string] holding the bytes of its UTF-8 encoding.
    - [new Date()] is a clock reading [now : Z] in milliseconds since the
      epoch, handed to every operation; the timestamps the code stores are
      the texts [toISOString now], as in the source.
    - The SQLite table [notifications] is a finite map from the primary key
      [id] to a row. *)

From Stdlib Require Import ZArith NArith String Ascii List Bool Lia.
From stdpp Require Import base option list gmap strings fin_maps.

Local Open Scope string_scope.
Local Open Scope Z_scope.

(** ** JavaScript completions *)

Inductive Outcome (E A : Type) : Type :=
| Returned (value : A)
| Threw (error : E).
Arguments Returned {E A} value.
Arguments Threw {E A} error.

(** A completion whose errors are [Error] objects, each given by its
    [message]. *)
Abbreviation Completion := (Outcome string).

(** [try body catch (error) handler(error)]; the handler may throw. *)
Definition try_catch {E E' A : Type} (body : Outcome E A)
  (handler : E -> Outcome E' A) : Outcome E' A :=
  match body with
  | Returned v => Returned v
  | Threw error => handler error
  end.

(** [promise.catch(handler)] with a handler that returns normally. *)
Definition promise_catch {E A B : Type} (p : Outcome E A) (handler : E -> B)
  : Outcome E (A + B) :=
  match p with
  | Returned v => Returned (inl v)
  | Threw error => Returned (inr (handler error))
  end.

Definition bind {E A B : Type} (c : Outcome E A) (k : A -> Outcome E B)
  : Outcome E B :=
  match c with
  | Returned v => k v
  | Threw error => Threw error
  end.

(** ** Values whose members the code reads

    Reading a member of [null] or of [undefined] throws a [TypeError];
    every other value can be read: an object yields the member, and a
    value without that member yields [undefined]. *)

Inductive Ref (A : Type) : Type :=
| Null
| Undefined
| Obj (members : A).
Arguments Null {A}.
Arguments Undefined {A}.
Arguments Obj {A} members.

Definition nullish {A : Type} (r : Ref A) : bool :=
  match r with
  | Obj _ => false
  | _ => true
  end.

(** The message of the [TypeError] for [r.name] on [null] or [undefined],
    in the wording of the V8 engine of Node.js 16 and later. *)
Definition unreadable {A : Type} (r : Ref A) (name : string) : string :=
  "Cannot read properties of " +:+
  match r with Null => "null" | _ => "undefined" end +:+
  " (reading '" +:+ name +:+ "')".

(** [r.name], where [member] reads the member of an object. *)
Definition read {A B : Type} (r : Ref A) (name : string) (member : A -> B)
  : Completion B :=
  match r with
  | Obj o => Returned (member o)
  | _ => Threw (unreadable r name)
  end.

(** What a [throw] or a rejected promise carries, as far as the code looks
    at it: the code reads one member of a caught value, [error.message].
    An [Error] object has a text there; a value that is no [Error] has, as
    a rule, none. *)
Abbreviation Thrown := (Ref (option string)).

(** [new Error(message)] *)
Definition new_Error (message : string) : Thrown := Obj (Some message).

(** [error.message] *)
Definition message_of (error : Thrown) : Completion (option string) :=
  read error "message" (fun message => message).

(** A completion of the code's own, seen where any value may be thrown. *)
Definition thrown {A : Type} (c : Completion A) : Outcome Thrown A :=
  match c with
  | Returned v => Returned v
  | Threw message => Threw (new_Error message)
  end.

(** [a || b] on strings that may be missing: the empty string is falsy. *)
Definition truthy (o : option string) : bool :=
  match o with
  | Some s => negb (String.eqb s "")
  | None => false
  end.

Definition js_or (o : option string) (d : string) : string :=
  match o with
  | Some s => if String.eqb s "" then d else s
  | None => d
  end.

(** ** Clock texts

    [Date.prototype.toISOString] renders an instant as
    [YYYY-MM-DDTHH:mm:ss.sssZ]; SQLite's [datetime(...)] renders one as
    [YYYY-MM-DD HH:MM:SS].  Both are UTC.  The renderings below cover the
    years 0000 to 9999. *)

Module Clock.

Definition ms_per_day : Z := 86400000.

(** Days since 1970-01-01 to the proleptic Gregorian (year, month, day). *)
Definition civil_from_days (days : Z) : Z * Z * Z :=
  let z := days + 719468 in
  let era := z / 146097 in
  let doe := z - era * 146097 in
  let yoe := (doe - doe / 1460 + doe / 36524 - doe / 146096) / 365 in
  let doy := doe - (365 * yoe + yoe / 4 - yoe / 100) in
  let mp := (5 * doy + 2) / 153 in
  let d := doy - (153 * mp + 2) / 5 + 1 in
  let m := if mp <? 10 then mp + 3 else mp - 9 in
  let y := yoe + era * 400 + (if m <=? 2 then 1 else 0) in
  (y, m, d).

Definition digit (n : Z) : ascii := ascii_of_nat (48 + Z.to_nat (n mod 10)).

Fixpoint pad (width : nat) (n : Z) : string :=
  match width with
  | O => ""
  | S w => pad w (n / 10) +:+ String (digit n) ""
  end.

Definition date_text (days : Z) : string :=
  let '(y, m, d) := civil_from_days days in
  pad 4 y +:+ "-" +:+ pad 2 m +:+ "-" +:+ pad 2 d.

Definition time_text (secs : Z) : string :=
  pad 2 (secs / 3600) +:+ ":" +:+ pad 2 (secs / 60 mod 60) +:+ ":" +:+
  pad 2 (secs mod 60).

(** [new Date(ms).toISOString()] *)
Definition toISOString (ms : Z) : string :=
  let rest := ms mod ms_per_day in
  date_text (ms / ms_per_day) +:+ "T" +:+ time_text (rest / 1000) +:+ "." +:+
  pad 3 (rest mod 1000) +:+ "Z".

(** SQLite [datetime(t)] for the instant [ms]: seconds are truncated. *)
Definition sqlite_datetime (ms : Z) : string :=
  let rest := ms mod ms_per_day in
  date_text (ms / ms_per_day) +:+ " " +:+ time_text (rest / 1000).

(** SQLite [datetime('now', '-N days')] evaluated at the instant [now]. *)
Definition datetime_now_minus_days (now : Z) (days : nat) : string :=
  sqlite_datetime (now - Z.of_nat days * ms_per_day).

(** SQLite compares two TEXT values bytewise (BINARY collation). *)
Definition text_lt (a b : string) : bool := String.ltb a b.

End Clock.

(** ** Lengths of JavaScript strings

    JavaScript counts [length] and the positions of [substring] in UTF-16
    code units.  Of the characters of a text, one outside the Basic
    Multilingual Plane (four bytes in UTF-8) is two units, a surrogate
    pair; every other character is one unit. *)

Module Utf16.

(** A byte that continues a character. *)
Definition continuation (b : ascii) : bool :=
  ((128 <=? N_of_ascii b) && (N_of_ascii b <? 192))%N.

(** The units of the character whose first byte is [b]. *)
Definition units (b : ascii) : nat :=
  if continuation b then 0%nat
  else if (240 <=? N_of_ascii b)%N then 2%nat else 1%nat.

(** [s.length] *)
Fixpoint length (s : string) : nat :=
  match s with
  | EmptyString => 0%nat
  | String b rest => (units b + length rest)%nat
  end.

(** The first unit of the surrogate pair for the character that starts
    with the bytes [b0 b1 b2], alone: the three bytes that stand for the
    lone surrogate 0xD7C0 + (code point / 1024). *)
Definition high_surrogate (b0 : ascii) (rest : string) : string :=
  let b1 := match rest with String b _ => N_of_ascii b | _ => 128%N end in
  let b2 := match rest with String _ (String b _) => N_of_ascii b | _ => 128%N end in
  let unit :=
    (55232 + (N_of_ascii b0 mod 8) * 256 + (b1 mod 64) * 4 + (b2 mod 64) / 16)%N in
  String (ascii_of_N 237)
    (String (ascii_of_N (128 + (unit / 64) mod 64))
       (String (ascii_of_N (128 + unit mod 64)) EmptyString)).

(** [s.substring(0, k)]: the first [k] units.  A cut between the two units
    of a surrogate pair leaves the first of them. *)
Fixpoint take (k : nat) (s : string) : string :=
  match s with
  | EmptyString => EmptyString
  | String b rest =>
      match units b, k with
      | O, _ => String b (take k rest)
      | S O, S k' => String b (take k' rest)
      | S (S _), S (S k') => String b (take k' rest)
      | S (S _), S O => high_surrogate b rest
      | _, _ => EmptyString
      end
  end.

End Utf16.


(** ** Data model *)

(** The object a provider's [send] resolves with.  Every provider fills
    [success] and [provider]; the other members depend on the provider and
    on the outcome ([details] collects the members no other code reads). *)
Module DeliveryResult.
Record t : Type := make {
  success : bool;
  provider : string;
  messageId : option string;
  error : option string;
  timestamp : option string;
  details : list (string * string)
}.
End DeliveryResult.

(** One row of the table [notifications] (see [createTables]).  The
    columns [id], [recipient], [message], [type] are NOT NULL; [priority],
    [status], [metadata], [createdAt], [updatedAt] are always supplied by
    [saveNotification]; [retryCount] has DEFAULT 0. *)
Module Row.
Record t : Type := make {
  id : string;
  recipient : string;
  message : string;
  type : string;
  priority : string;
  status : string;
  metadata : gmap string string;
  providerResponse : option DeliveryResult.t;
  error : option string;
  retryCount : Z;
  createdAt : string;
  updatedAt : string;
  sentAt : option string;
  failedAt : option string
}.
End Row.

(** The JavaScript object that travels through the service and sits in the
    queue: a request as built by the HTTP layer or by
    [sendBulkNotifications] (members [id] .. [status]), or a row as read
    back by [getNotification] (all columns). *)
Module Notification.
Record t : Type := make {
  id : string;
  recipient : option string;
  message : option string;
  type : option string;
  priority : option string;
  metadata : option (gmap string string);
  timestamp : option string;
  status : option string;
  providerResponse : option DeliveryResult.t;
  error : option string;
  retryCount : option Z;
  createdAt : option string;
  updatedAt : option string;
  sentAt : option string;
  failedAt : option string
}.

Definition set_status (v : string) (n : t) : t :=
  make (id n) (recipient n) (message n) (type n) (priority n) (metadata n)
    (timestamp n) (Some v) (providerResponse n) (error n) (retryCount n)
    (createdAt n) (updatedAt n) (sentAt n) (failedAt n).

Definition set_providerResponse (v : DeliveryResult.t) (n : t) : t :=
  make (id n) (recipient n) (message n) (type n) (priority n) (metadata n)
    (timestamp n) (status n) (Some v) (error n) (retryCount n)
    (createdAt n) (updatedAt n) (sentAt n) (failedAt n).

Definition set_sentAt (v : string) (n : t) : t :=
  make (id n) (recipient n) (message n) (type n) (priority n) (metadata n)
    (timestamp n) (status n) (providerResponse n) (error n) (retryCount n)
    (createdAt n) (updatedAt n) (Some v) (failedAt n).

Definition set_error (v : string) (n : t) : t :=
  make (id n) (recipient n) (message n) (type n) (priority n) (metadata n)
    (timestamp n) (status n) (providerResponse n) (Some v) (retryCount n)
    (createdAt n) (updatedAt n) (sentAt n) (failedAt n).

Definition set_failedAt (v : string) (n : t) : t :=
  make (id n) (recipient n) (message n) (type n) (priority n) (metadata n)
    (timestamp n) (status n) (providerResponse n) (error n) (retryCount n)
    (createdAt n) (updatedAt n) (sentAt n) (Some v).

Definition set_retryCount (v : Z) (n : t) : t :=
  make (id n) (recipient n) (message n) (type n) (priority n) (metadata n)
    (timestamp n) (status n) (providerResponse n) (error n) (Some v)
    (createdAt n) (updatedAt n) (sentAt n) (failedAt n).

(** [delete notification.error] *)
Definition delete_error (n : t) : t :=
  make (id n) (recipient n) (message n) (type n) (priority n) (metadata n)
    (timestamp n) (status n) (providerResponse n) None (retryCount n)
    (createdAt n) (updatedAt n) (sentAt n) (failedAt n).

(** [delete notification.failedAt] *)
Definition delete_failedAt (n : t) : t :=
  make (id n) (recipient n) (message n) (type n) (priority n) (metadata n)
    (timestamp n) (status n) (providerResponse n) (error n) (retryCount n)
    (createdAt n) (updatedAt n) (sentAt n) None.

(** The object [SELECT *] yields for a row, after [getNotification] has
    parsed the two JSON columns. *)
Definition of_row (r : Row.t) : t :=
  make (Row.id r) (Some (Row.recipient r)) (Some (Row.message r))
    (Some (Row.type r)) (Some (Row.priority r)) (Some (Row.metadata r))
    None (Some (Row.status r)) (Row.providerResponse r) (Row.error r)
    (Some (Row.retryCount r)) (Some (Row.createdAt r))
    (Some (Row.updatedAt r)) (Row.sentAt r) (Row.failedAt r).

End Notification.

(** ** src/services/DatabaseService.js *)

Module DatabaseService.

Abbreviation table := (gmap string Row.t).

(** [INSERT INTO notifications (id, recipient, message, type, priority,
    status, metadata, createdAt, updatedAt) VALUES (...)].  The statement
    fails on a NULL in a NOT NULL column and on a primary key that is
    already present; the promise is then rejected and the table is left as
    it was. *)
Definition saveNotification (now : Z) (n : Notification.t) (db : table)
  : Completion string * table :=
  match Notification.recipient n, Notification.message n, Notification.type n with
  | Some recipient, Some message, Some type =>
      match db !! Notification.id n with
      | Some _ =>
          (Threw "SQLITE_CONSTRAINT: UNIQUE constraint failed: notifications.id", db)
      | None =>
          let row :=
            Row.make (Notification.id n) recipient message type
              (js_or (Notification.priority n) "normal")
              (js_or (Notification.status n) "pending")
              (default ∅ (Notification.metadata n))
              None None 0
              (js_or (Notification.timestamp n) (Clock.toISOString now))
              (Clock.toISOString now)
              None None in
          (Returned (Notification.id n), <[Notification.id n := row]> db)
      end
  | None, _, _ =>
      (Threw "SQLITE_CONSTRAINT: NOT NULL constraint failed: notifications.recipient", db)
  | _, None, _ =>
      (Threw "SQLITE_CONSTRAINT: NOT NULL constraint failed: notifications.message", db)
  | _, _, None =>
      (Threw "SQLITE_CONSTRAINT: NOT NULL constraint failed: notifications.type", db)
  end.

(** One [key = ?] of the SET clause that [updateNotification] builds from
    [Object.entries(updates)]; only the keys the service passes occur. *)
Inductive Assignment : Type :=
| SetStatus (v : string)
| SetProviderResponse (v : DeliveryResult.t)
| SetSentAt (v : string)
| SetError (v : string)
| SetFailedAt (v : string)
| SetRetryCount (v : Z).

Definition assign (r : Row.t) (a : Assignment) : Row.t :=
  match a with
  | SetStatus v =>
      Row.make (Row.id r) (Row.recipient r) (Row.message r) (Row.type r)
        (Row.priority r) v (Row.metadata r) (Row.providerResponse r)
        (Row.error r) (Row.retryCount r) (Row.createdAt r) (Row.updatedAt r)
        (Row.sentAt r) (Row.failedAt r)
  | SetProviderResponse v =>
      Row.make (Row.id r) (Row.recipient r) (Row.message r) (Row.type r)
        (Row.priority r) (Row.status r) (Row.metadata r) (Some v)
        (Row.error r) (Row.retryCount r) (Row.createdAt r) (Row.updatedAt r)
        (Row.sentAt r) (Row.failedAt r)
  | SetSentAt v =>
      Row.make (Row.id r) (Row.recipient r) (Row.message r) (Row.type r)
        (Row.priority r) (Row.status r) (Row.metadata r) (Row.providerResponse r)
        (Row.error r) (Row.retryCount r) (Row.createdAt r) (Row.updatedAt r)
        (Some v) (Row.failedAt r)
  | SetError v =>
      Row.make (Row.id r) (Row.recipient r) (Row.message r) (Row.type r)
        (Row.priority r) (Row.status r) (Row.metadata r) (Row.providerResponse r)
        (Some v) (Row.retryCount r) (Row.createdAt r) (Row.updatedAt r)
        (Row.sentAt r) (Row.failedAt r)
  | SetFailedAt v =>
      Row.make (Row.id r) (Row.recipient r) (Row.message r) (Row.type r)
        (Row.priority r) (Row.status r) (Row.metadata r) (Row.providerResponse r)
        (Row.error r) (Row.retryCount r) (Row.createdAt r) (Row.updatedAt r)
        (Row.sentAt r) (Some v)
  | SetRetryCount v =>
      Row.make (Row.id r) (Row.recipient r) (Row.message r) (Row.type r)
        (Row.priority r) (Row.status r) (Row.metadata r) (Row.providerResponse r)
        (Row.error r) v (Row.createdAt r) (Row.updatedAt r)
        (Row.sentAt r) (Row.failedAt r)
  end.

Definition touch (now : Z) (r : Row.t) : Row.t :=
  Row.make (Row.id r) (Row.recipient r) (Row.message r) (Row.type r)
    (Row.priority r) (Row.status r) (Row.metadata r) (Row.providerResponse r)
    (Row.error r) (Row.retryCount r) (Row.createdAt r) (Clock.toISOString now)
    (Row.sentAt r) (Row.failedAt r).

(** [UPDATE notifications SET k1 = ?, ..., updatedAt = ? WHERE id = ?].
    A key that matches no row changes nothing and is no error. *)
Definition updateNotification (now : Z) (id : string)
  (updates : list Assignment) (db : table) : table :=
  alter (fun r => touch now (foldl assign r updates)) id db.

(** [SELECT * FROM notifications WHERE id = ?] *)
Definition getNotification (id : string) (db : table) : option Notification.t :=
  Notification.of_row <$> db !! id.

(** *** [getNotifications] *)

Record Options : Type := mkOptions {
  limit : option Z;
  offset : option Z;
  opt_type : option string;
  opt_status : option string;
  opt_recipient : option string;
  startDate : option string;
  endDate : option string
}.

Definition lower (c : ascii) : ascii :=
  let k := nat_of_ascii c in
  if (Nat.leb 65 k && Nat.leb k 90)%bool then ascii_of_nat (k + 32) else c.

(** SQLite [LIKE]: [%] matches any run of characters, [_] any single one,
    every other character matches itself up to ASCII case. *)
Fixpoint like (pattern text : list ascii) : bool :=
  match pattern with
  | [] => match text with [] => true | _ => false end
  | p :: pattern' =>
      if Ascii.eqb p "%" then
        (fix any (text : list ascii) : bool :=
           like pattern' text ||
           match text with
           | [] => false
           | _ :: text' => any text'
           end) text
      else
        match text with
        | [] => false
        | c :: text' =>
            (Ascii.eqb p "_" || Ascii.eqb (lower p) (lower c)) && like pattern' text'
        end
  end.

Definition sql_like (pattern text : string) : bool :=
  like (list_ascii_of_string pattern) (list_ascii_of_string text).

(** *** Comparisons with [createdAt]

    The column [createdAt] is declared DATETIME, which gives it NUMERIC
    affinity, and a value compared with it is given the same affinity:
    a bound that is a well-formed number (after SQLite's [sqlite3AtoF]:
    blanks, a sign, digits with at most one point, an exponent, blanks) is
    compared as a number, and a number is below every text.  The texts
    [toISOString] and [datetime] produce are not numbers; [createdAt]
    itself is taken to hold such a text. *)

Definition sql_space (c : ascii) : bool :=
  let k := nat_of_ascii c in ((Nat.leb 9 k && Nat.leb k 13) || Nat.eqb k 32)%bool.

Definition sql_digit (c : ascii) : bool :=
  let k := nat_of_ascii c in (Nat.leb 48 k && Nat.leb k 57)%bool.

Fixpoint skip (p : ascii -> bool) (z : list ascii) : list ascii :=
  match z with
  | c :: z' => if p c then skip p z' else z
  | [] => []
  end.

Definition skip_sign (z : list ascii) : list ascii :=
  match z with
  | c :: z' => if (Ascii.eqb c "-" || Ascii.eqb c "+")%bool then z' else z
  | [] => []
  end.

(** The digits at the head of [z]: what follows them, and whether there
    was any. *)
Definition digits (z : list ascii) : list ascii * bool :=
  (skip sql_digit z, negb (Nat.eqb (length (skip sql_digit z)) (length z))).

Definition numeric_literal (s : string) : bool :=
  match skip sql_space (list_ascii_of_string s) with
  | [] => false
  | z =>
      let '(z, whole) := digits (skip_sign z) in
      let '(z, fraction) :=
        match z with
        | c :: z' => if Ascii.eqb c "." then digits z' else (z, false)
        | [] => (z, false)
        end in
      let '(z, exponent) :=
        match z with
        | c :: z' =>
            if (Ascii.eqb c "e" || Ascii.eqb c "E")%bool
            then match z' with
                 | [] => ([], false)
                 | _ => digits (skip_sign z')
                 end
            else (z, true)
        | [] => (z, true)
        end in
      match skip sql_space z with
      | [] => ((whole || fraction) && exponent)%bool
      | _ => false
      end
  end.

(** [createdAt >= ?] *)
Definition createdAt_ge (createdAt bound : string) : bool :=
  if numeric_literal bound then true else negb (Clock.text_lt createdAt bound).

(** [createdAt <= ?] *)
Definition createdAt_le (createdAt bound : string) : bool :=
  if numeric_literal bound then false else negb (Clock.text_lt bound createdAt).

(** The WHERE clause: a condition is added only for a truthy option. *)
Definition matches (o : Options) (r : Row.t) : bool :=
  (if truthy (opt_type o) then String.eqb (Row.type r) (js_or (opt_type o) "") else true) &&
  (if truthy (opt_status o) then String.eqb (Row.status r) (js_or (opt_status o) "") else true) &&
  (if truthy (opt_recipient o)
   then sql_like ("%" +:+ js_or (opt_recipient o) "" +:+ "%") (Row.recipient r) else true) &&
  (if truthy (startDate o)
   then createdAt_ge (Row.createdAt r) (js_or (startDate o) "") else true) &&
  (if truthy (endDate o)
   then createdAt_le (Row.createdAt r) (js_or (endDate o) "") else true).

(** [ORDER BY createdAt DESC]: an insertion sort; rows with the same
    [createdAt] keep the order in which the table enumerates them. *)
Fixpoint insert_desc (r : Row.t) (rows : list Row.t) : list Row.t :=
  match rows with
  | [] => [r]
  | r' :: rest =>
      if Clock.text_lt (Row.createdAt r) (Row.createdAt r')
      then r' :: insert_desc r rest
      else r :: rows
  end.

Definition order_by_createdAt_desc (rows : list Row.t) : list Row.t :=
  foldr insert_desc [] rows.

(** [LIMIT ? OFFSET ?]: a negative limit is no limit, a negative offset is
    no offset. *)
Definition limit_offset {A : Type} (lim off : Z) (rows : list A) : list A :=
  let rest := drop (Z.to_nat off) rows in
  if lim <? 0 then rest else take (Z.to_nat lim) rest.

Definition select_where (o : Options) (db : table) : list Row.t :=
  order_by_createdAt_desc (filter (fun r => matches o r = true) (map_to_list db).*2).

Record Page : Type := mkPage {
  notifications : list Notification.t;
  total : Z;
  page_limit : Z;
  page_offset : Z
}.

Definition getNotifications (o : Options) (db : table) : Page :=
  let lim := default 50 (limit o) in
  let off := default 0 (offset o) in
  let rows := limit_offset lim off (select_where o db) in
  let notifications := map Notification.of_row rows in
  mkPage notifications (Z.of_nat (length notifications)) lim off.

(** *** [deleteOldNotifications]

    [DELETE FROM notifications WHERE createdAt < datetime('now', '-N days')].
    [createdAt] holds the text written by [saveNotification]; the right-hand
    side is the text SQLite's [datetime] produces; [<] compares the two
    texts.  The promise resolves with [{ deleted: this.changes }]. *)
Definition expired (cutoff : string) (r : Row.t) : bool :=
  Clock.text_lt (Row.createdAt r) cutoff.

Definition deleteOldNotifications (now : Z) (daysToKeep : nat) (db : table)
  : Z * table :=
  let cutoff := Clock.datetime_now_minus_days now daysToKeep in
  let kept := filter (fun kr => expired cutoff kr.2 = false) db in
  (Z.of_nat (size db) - Z.of_nat (size kept), kept).

End DatabaseService.

(** ** src/config/config.js (the members the modelled code reads) *)

Module Config.
Record t : Type := make {
  APP_NAME : string;
  EMAIL_FROM : string;
  TWILIO_PHONE_NUMBER : string;
  WEBHOOK_SECRET : string;
  WEBHOOK_TIMEOUT : Z;
  ENABLE_EMAIL : bool;
  ENABLE_SMS : bool;
  ENABLE_PUSH : bool;
  ENABLE_WEBHOOK : bool;
  BATCH_SIZE : Z
}.
End Config.

(** ** Providers

    Each provider's [send] is [try { body } catch (error) { return failure }],
    where the failure object is built from [error.message].  The body calls
    one external client (SMTP transport, SMS gateway, push-messaging
    service, HTTP client); the client is a parameter whose call either
    resolves with a value or rejects with whatever the client throws. *)

Definition meta (n : Notification.t) (key : string) : option string :=
  Notification.metadata n ≫= fun m => m !! key.

(** src/providers/EmailProvider.js *)
Module EmailProvider.

Record MailOptions : Type := mkMailOptions {
  from : string;
  to : option string;
  subject : string;
  html : string;
  text : option string;
  priority : string;
  attachments : option string
}.

Record MailInfo : Type := mkMailInfo {
  messageId : option string;
  response : option string
}.

Section Email.
Variable config : Config.t.
Variable sendMail : MailOptions -> Outcome Thrown MailInfo.

Definition generateSubject (n : Notification.t) : string :=
  if truthy (meta n "subject") then js_or (meta n "subject") ""
  else
    (if bool_decide (Notification.priority n = Some "high") then "[URGENT] " else "")
    +:+ "Notification from " +:+ Config.APP_NAME config.

(** The HTML template, with its fixed markup and style sheet left out: the
    interpolated parts in the order in which the template places them. *)
Definition generateEmailBody (now : Z) (n : Notification.t) : string :=
  "<h1>" +:+ js_or (meta n "title") "Notification" +:+ "</h1>" +:+
  "<div class='message " +:+
  (if bool_decide (Notification.priority n = Some "high") then "priority-high" else "") +:+
  "'><p>" +:+ default "undefined" (Notification.message n) +:+ "</p></div>" +:+
  (if truthy (meta n "buttonText") && truthy (meta n "buttonUrl")
   then "<a href='" +:+ js_or (meta n "buttonUrl") "" +:+ "' class='button'>" +:+
        js_or (meta n "buttonText") "" +:+ "</a>"
   else "") +:+
  "<p>This notification was sent by " +:+ Config.APP_NAME config +:+ "</p>" +:+
  "<p>Notification ID: " +:+ Notification.id n +:+ "</p>" +:+
  "<p>Sent at: " +:+ Clock.toISOString now +:+ "</p>" +:+
  (if truthy (meta n "unsubscribeUrl")
   then "<a href='" +:+ js_or (meta n "unsubscribeUrl") "" +:+ "'>Unsubscribe</a>"
   else "").

Definition mapPriority (priority : option string) : string :=
  match priority with
  | Some p =>
      if String.eqb p "high" then "high"
      else if String.eqb p "low" then "low"
      else "normal"
  | None => "normal"
  end.

(** The [try] block of [send]. *)
Definition send_body (now : Z) (n : Notification.t) : Outcome Thrown DeliveryResult.t :=
  let mailOptions :=
    mkMailOptions (Config.EMAIL_FROM config) (Notification.recipient n)
      (generateSubject n) (generateEmailBody now n) (Notification.message n)
      (mapPriority (Notification.priority n))
      (if truthy (meta n "attachments") then meta n "attachments" else None) in
  bind (sendMail mailOptions) (fun info =>
  Returned (DeliveryResult.make true "email" (messageId info) None
              (Some (Clock.toISOString now))
              [("response", default "" (response info))])).

(** The object the [catch] block of [send] returns, given [error.message]. *)
Definition send_failure (now : Z) (message : option string) : DeliveryResult.t :=
  DeliveryResult.make false "email" None message
    (Some (Clock.toISOString now)) [].

Definition send (now : Z) (n : Notification.t) : Completion DeliveryResult.t :=
  try_catch (send_body now n) (fun error =>
    bind (message_of error) (fun message => Returned (send_failure now message))).

End Email.
End EmailProvider.

(** src/providers/SMSProvider.js *)
Module SMSProvider.

Record MessageOptions : Type := mkMessageOptions {
  body : string;
  from : string;
  to : option string;
  mediaUrl : option string
}.

Record Message : Type := mkMessage {
  sid : option string;
  status : option string;
  msg_to : option string;
  msg_from : option string
}.

Definition is_digit (c : ascii) : bool :=
  let k := nat_of_ascii c in (Nat.leb 48 k && Nat.leb k 57)%bool.

(** [/^\+[1-9]\d{1,14}$/.test(phoneNumber)]; a missing number is tested as
    the text [undefined] and fails. *)
Definition isValidPhoneNumber (phoneNumber : option string) : bool :=
  match phoneNumber with
  | Some s =>
      match list_ascii_of_string s with
      | plus :: first :: rest =>
          Ascii.eqb plus "+" &&
          (is_digit first && negb (Ascii.eqb first "0")) &&
          forallb is_digit rest &&
          (Nat.leb 1 (length rest) && Nat.leb (length rest) 14)%bool
      | _ => false
      end
  | None => false
  end.

Definition newline : string := String (ascii_of_nat 10) EmptyString.

Section SMS.
Variable config : Config.t.
Variable create : MessageOptions -> Outcome Thrown Message.

(** [message.length] on a missing message is a TypeError. *)
Definition formatSMSMessage (n : Notification.t) : Completion string :=
  let urgent := bool_decide (Notification.priority n = Some "high") in
  let signed :=
    match Notification.metadata n with
    | Some m => negb (bool_decide (m !! "includeSignature" = Some "false"))
    | None => false
    end in
  let signature := newline +:+ newline +:+ "- " +:+ Config.APP_NAME config in
  let built : option string :=
    match Notification.message n with
    | Some message =>
        Some ((if urgent then "🚨 URGENT: " else "") +:+ message +:+
              (if signed then signature else ""))
    | None =>
        if urgent || signed
        then Some ((if urgent then "🚨 URGENT: " else "") +:+ "undefined" +:+
                   (if signed then signature else ""))
        else None
    end in
  match built with
  | Some message =>
      if Nat.ltb 1600 (Utf16.length message)
      then Returned (Utf16.take 1597 message +:+ "...")
      else Returned message
  | None => Threw "Cannot read properties of undefined (reading 'length')"
  end.

Definition send_body (now : Z) (n : Notification.t) : Outcome Thrown DeliveryResult.t :=
  if negb (isValidPhoneNumber (Notification.recipient n))
  then Threw (new_Error "Invalid phone number format")
  else
    bind (thrown (formatSMSMessage n)) (fun message =>
    let messageOptions :=
      mkMessageOptions message (Config.TWILIO_PHONE_NUMBER config)
        (Notification.recipient n)
        (if truthy (meta n "mediaUrl") then meta n "mediaUrl" else None) in
    bind (create messageOptions) (fun result =>
    Returned (DeliveryResult.make true "sms" (sid result) None
                (Some (Clock.toISOString now))
                [("status", default "" (status result));
                 ("to", default "" (msg_to result));
                 ("from", default "" (msg_from result))]))).

Definition send_failure (now : Z) (message : option string) : DeliveryResult.t :=
  DeliveryResult.make false "sms" None message
    (Some (Clock.toISOString now)) [].

Definition send (now : Z) (n : Notification.t) : Completion DeliveryResult.t :=
  try_catch (send_body now n) (fun error =>
    bind (message_of error) (fun message => Returned (send_failure now message))).

End SMS.
End SMSProvider.

(** src/providers/PushProvider.js *)
Module PushProvider.

Record PushMessage : Type := mkPushMessage {
  title : string;
  body : option string;
  token : option string;
  data : option string
}.

Section Push.
Variable messaging_send : PushMessage -> Outcome Thrown (option string).

Definition send_body (n : Notification.t) : Outcome Thrown DeliveryResult.t :=
  let message :=
    mkPushMessage (js_or (meta n "title") "New Notification")
      (Notification.message n) (Notification.recipient n)
      (if truthy (meta n "data") then meta n "data" else None) in
  bind (messaging_send message) (fun response_messageId =>
  Returned (DeliveryResult.make true "push" response_messageId None None [])).

Definition send_failure (message : option string) : DeliveryResult.t :=
  DeliveryResult.make false "push" None message None [].

Definition send (now : Z) (n : Notification.t) : Completion DeliveryResult.t :=
  try_catch (send_body n) (fun error =>
    bind (message_of error) (fun message => Returned (send_failure message))).

End Push.
End PushProvider.

(** src/providers/WebhookProvider.js *)
Module WebhookProvider.

Record Payload : Type := mkPayload {
  event : string;
  id : string;
  message : option string;
  timestamp : string;
  type : option string;
  priority : option string;
  data : option string
}.

Record Request : Type := mkRequest {
  url : option string;
  payload : Payload;
  authorization : string;
  timeout : Z;
  maxRedirects : Z
}.

Record Response : Type := mkResponse {
  status : Z;
  statusText : string
}.

Section Webhook.
Variable config : Config.t.
Variable post : Request -> Outcome Thrown Response.

Definition send_body (now : Z) (n : Notification.t) : Outcome Thrown DeliveryResult.t :=
  let request :=
    mkRequest (Notification.recipient n)
      (mkPayload (js_or (meta n "event") "notification") (Notification.id n)
         (Notification.message n) (Clock.toISOString now)
         (Notification.type n) (Notification.priority n)
         (if truthy (meta n "data") then meta n "data" else None))
      ("Bearer " +:+ Config.WEBHOOK_SECRET config)
      (Config.WEBHOOK_TIMEOUT config) 5 in
  bind (post request) (fun response =>
  Returned (DeliveryResult.make true "webhook" None None
              (Some (Clock.toISOString now))
              [("statusText", statusText response)])).

Definition send_failure (message : option string) : DeliveryResult.t :=
  DeliveryResult.make false "webhook" None message None [].

Definition send (now : Z) (n : Notification.t) : Completion DeliveryResult.t :=
  try_catch (send_body now n) (fun error =>
    bind (message_of error) (fun message => Returned (send_failure message))).

End Webhook.
End WebhookProvider.

(** The capability the service uses of a provider: [send], given the clock
    reading at the call. *)
Abbreviation Provider := (Z -> Notification.t -> Completion DeliveryResult.t).

(** The external clients the providers are built on. *)
Module Clients.
Record t : Type := make {
  sendMail : EmailProvider.MailOptions -> Outcome Thrown EmailProvider.MailInfo;
  create : SMSProvider.MessageOptions -> Outcome Thrown SMSProvider.Message;
  messaging_send : PushProvider.PushMessage -> Outcome Thrown (option string);
  post : WebhookProvider.Request -> Outcome Thrown WebhookProvider.Response
}.
End Clients.

(** ** src/services/NotificationService.js *)

Module NotificationService.

Import DatabaseService.

(** The service object: [this.db], [this.providers], [this.queue],
    [this.processing]. *)
Record t : Type := make {
  db : table;
  providers : gmap string Provider;
  queue : list Notification.t;
  processing : bool
}.

Definition with_db (db' : table) (s : t) : t :=
  make db' (providers s) (queue s) (processing s).

Definition with_queue (q : list Notification.t) (s : t) : t :=
  make (db s) (providers s) q (processing s).

Definition with_processing (b : bool) (s : t) : t :=
  make (db s) (providers s) (queue s) b.

Definition initializeProviders (config : Config.t) (clients : Clients.t)
  : gmap string Provider :=
  let providers : gmap string Provider := ∅ in
  let providers :=
    if Config.ENABLE_EMAIL config
    then <["email" := EmailProvider.send config (Clients.sendMail clients)]> providers
    else providers in
  let providers :=
    if Config.ENABLE_SMS config
    then <["sms" := SMSProvider.send config (Clients.create clients)]> providers
    else providers in
  let providers :=
    if Config.ENABLE_PUSH config
    then <["push" := PushProvider.send (Clients.messaging_send clients)]> providers
    else providers in
  let providers :=
    if Config.ENABLE_WEBHOOK config
    then <["webhook" := WebhookProvider.send config (Clients.post clients)]> providers
    else providers in
  providers.

(** [new NotificationService(database)] *)
Definition constructor (config : Config.t) (clients : Clients.t) (database : table) : t :=
  make database (initializeProviders config clients) [] false.

(** *** Submission *)

Record Queued : Type := mkQueued {
  queued_status : string;
  queued_id : string;
  queued_timestamp : string
}.

Definition sendNotification (now : Z) (n : Notification.t) (s : t)
  : Completion Queued * t :=
  match saveNotification now n (db s) with
  | (Returned _, db') =>
      (Returned (mkQueued "queued" (Notification.id n) (Clock.toISOString now)),
       with_queue (queue s ++ [n]) (with_db db' s))
  | (Threw message, _) => (Threw message, s)
  end.

(** An object in the array handed to [sendBulkNotifications], or the body of
    [POST /api/notifications/send]. *)
Module Request.
Record t : Type := make {
  id : option string;
  recipient : option string;
  message : option string;
  type : option string;
  priority : option string;
  metadata : option (gmap string string)
}.
End Request.

Module BulkResult.
Record t : Type := make {
  id : string;
  status : string;
  result : option Queued;
  error : option string
}.
End BulkResult.

(** [{ ...notificationData, id: notificationData.id || uuid.v4(),
       timestamp: new Date().toISOString(), status: 'pending' }] *)
Definition bulk_notification (now : Z) (id : string) (d : Request.t) : Notification.t :=
  Notification.make id (Request.recipient d) (Request.message d) (Request.type d)
    (Request.priority d) (Request.metadata d) (Some (Clock.toISOString now))
    (Some "pending") None None None None None None None.

(** The number of [uuid.v4()] calls made so far and the id a request gets:
    [notificationData.id || uuid.v4()] calls [uuid.v4()] only for a request
    without a truthy [id]; [uuid k] is the value of the [k]-th call. *)
Definition bulk_id (uuid : nat -> string) (calls : nat) (d : Request.t) : string :=
  if truthy (Request.id d) then js_or (Request.id d) "" else uuid calls.

Definition bulk_calls (calls : nat) (d : Request.t) : nat :=
  if truthy (Request.id d) then calls else S calls.

(** The body of the loop of [sendBulkNotifications] for an element that is
    an object: the [try] block pushes a [queued] entry, the [catch] block an
    [error] entry. *)
Definition bulk_item (now : Z) (uuid : nat -> string) (calls : nat)
  (notificationData : Request.t) (s : t) : BulkResult.t * t :=
  let id := bulk_id uuid calls notificationData in
  let notification := bulk_notification now id notificationData in
  match sendNotification now notification s with
  | (Returned result, s') =>
      (BulkResult.make id "queued" (Some result) None, s')
  | (Threw message, s') =>
      (BulkResult.make (js_or (Request.id notificationData) "unknown")
         "error" None (Some message), s')
  end.

(** The loop.  For an element that is [null] or [undefined] the [try]
    block throws at [notificationData.id], before anything is submitted,
    and the [catch] block, which reads [notificationData.id] for its entry,
    throws in turn: that error leaves the loop and rejects the call, with
    the elements before it submitted and the results gathered so far
    lost. *)
Fixpoint bulk_loop (now : Z) (uuid : nat -> string) (calls : nat)
  (notifications : list (Ref Request.t)) (results : list BulkResult.t) (s : t)
  : Completion (list BulkResult.t) * t :=
  match notifications with
  | [] => (Returned results, s)
  | notificationData :: rest =>
      match notificationData with
      | Obj d =>
          let '(entry, s') := bulk_item now uuid calls d s in
          bulk_loop now uuid (bulk_calls calls d) rest (results ++ [entry]) s'
      | _ => (Threw (unreadable notificationData "id"), s)
      end
  end.

Definition sendBulkNotifications (now : Z) (uuid : nat -> string)
  (notifications : list (Ref Request.t)) (s : t)
  : Completion (list BulkResult.t) * t :=
  bulk_loop now uuid 0 notifications [] s.

(** *** Dispatch *)

(** Names every JavaScript object inherits from [Object.prototype]: for
    these [this.providers[type]] is truthy although no provider is
    registered, and calling its [send] is a TypeError. *)
Definition inherited_names : list string :=
  ["constructor"; "toString"; "toLocaleString"; "valueOf"; "hasOwnProperty";
   "isPrototypeOf"; "propertyIsEnumerable"; "__proto__"; "__defineGetter__";
   "__defineSetter__"; "__lookupGetter__"; "__lookupSetter__"].

Definition type_text (n : Notification.t) : string :=
  default "undefined" (Notification.type n).

(** [provider.send(notification)], for [provider = this.providers[type]]
    that passed the [!provider] test. *)
Definition call_provider (s : t) (now : Z) (n : Notification.t)
  : Completion DeliveryResult.t :=
  match providers s !! type_text n with
  | Some provider => provider now n
  | None =>
      if bool_decide (type_text n ∈ inherited_names)
      then Threw "provider.send is not a function"
      else Threw ("No provider found for notification type: " +:+ type_text n)
  end.

(** The [catch] block of [processNotification]: the object and the row are
    marked failed and the error is thrown again. *)
Definition process_failed (now : Z) (message : string) (n : Notification.t)
  (database : table) : Notification.t * table :=
  let failedAt := Clock.toISOString now in
  (Notification.set_failedAt failedAt
     (Notification.set_error message (Notification.set_status "failed" n)),
   updateNotification now (Notification.id n)
     [SetStatus "failed"; SetError message; SetFailedAt failedAt] database).

(** [processNotification(notification)]: the completion of the promise, the
    notification object as the call leaves it, and the table.  Database
    statements of this function are taken to succeed. *)
Definition processNotification (now : Z) (n : Notification.t) (s : t)
  : Completion DeliveryResult.t * Notification.t * table :=
  let n1 := Notification.set_status "processing" n in
  let db1 := updateNotification now (Notification.id n) [SetStatus "processing"] (db s) in
  match call_provider s now n1 with
  | Returned result =>
      let finalStatus := if DeliveryResult.success result then "sent" else "failed" in
      let sentAt := Clock.toISOString now in
      let n2 :=
        Notification.set_sentAt sentAt
          (Notification.set_providerResponse result
             (Notification.set_status finalStatus n1)) in
      let db2 :=
        updateNotification now (Notification.id n)
          [SetStatus finalStatus; SetProviderResponse result; SetSentAt sentAt] db1 in
      (Returned result, n2, db2)
  | Threw message =>
      let '(n2, db2) := process_failed now message n1 db1 in
      (Threw message, n2, db2)
  end.

(** What a member of a batch settles with:
    [this.processNotification(notification).catch(error =>
       ({ error: error.message, notificationId: notification.id }))]. *)
Record Absorbed : Type := mkAbsorbed {
  absorbed_error : string;
  notificationId : string
}.

Definition dispatch_member (now : Z) (n : Notification.t) (s : t)
  : Completion (DeliveryResult.t + Absorbed) * t :=
  let '(outcome, _, db') := processNotification now n s in
  (promise_catch outcome (fun message => mkAbsorbed message (Notification.id n)),
   with_db db' s).

(** [array.splice(0, deleteCount)]: the number of elements removed is
    [deleteCount] clamped to the range from 0 to the length. *)
Definition splice_count (deleteCount : Z) (len : nat) : nat :=
  Z.to_nat (Z.min (Z.max deleteCount 0) (Z.of_nat len)).

(** [startQueueProcessor]: the callback of [setInterval(..., 1000)], up to
    [batch.map(...)]: the guard, the flag and the [splice].  [None] is the
    early [return]. *)
Definition tick_start (config : Config.t) (s : t) : option (list Notification.t) * t :=
  if processing s || Nat.eqb (length (queue s)) 0 then (None, s)
  else
    let k := splice_count (Config.BATCH_SIZE config) (length (queue s)) in
    (Some (take k (queue s)),
     with_queue (drop k (queue s)) (with_processing true s)).

(** The members of a batch, each run to its end, in the order of the batch
    (each member reads and writes the row of its own id only). *)
Fixpoint dispatch_batch (now : Z) (batch : list Notification.t) (s : t)
  : list (Completion (DeliveryResult.t + Absorbed)) * t :=
  match batch with
  | [] => ([], s)
  | n :: rest =>
      let '(c, s') := dispatch_member now n s in
      let '(cs, s'') := dispatch_batch now rest s' in
      (c :: cs, s'')
  end.

(** [finally { this.processing = false }] *)
Definition tick_finish (s : t) : t := with_processing false s.

(** One interval callback run from its start to its end with nothing else
    in between. *)
Definition tick (config : Config.t) (now : Z) (s : t) : Completion unit * t :=
  match tick_start config s with
  | (None, s') => (Returned tt, s')
  | (Some batch, s') =>
      let '(_, s'') := dispatch_batch now batch s' in
      (Returned tt, tick_finish s'')
  end.

(** *** Queries and retry *)

Definition getNotificationStatus (id : string) (s : t) : option Notification.t :=
  getNotification id (db s).

Definition getNotificationHistory (options : Options) (s : t) : Page :=
  getNotifications
    (mkOptions (Some (default 50 (limit options))) (Some (default 0 (offset options)))
       (opt_type options) (opt_status options) (opt_recipient options)
       (startDate options) (endDate options))
    (db s).

Record Retried : Type := mkRetried {
  retried_success : bool;
  retried_message : string;
  retried_retryCount : Z
}.

(** [(notification.retryCount || 0) + 1] *)
Definition next_retryCount (n : Notification.t) : Z :=
  default 0 (Notification.retryCount n) + 1.

Definition retryFailedNotification (now : Z) (id : string) (s : t)
  : Completion Retried * t :=
  match getNotification id (db s) with
  | None => (Threw "Notification not found", s)
  | Some notification =>
      if negb (bool_decide (Notification.status notification = Some "failed"))
      then (Threw "Only failed notifications can be retried", s)
      else
        let retryCount := next_retryCount notification in
        let notification :=
          Notification.delete_failedAt
            (Notification.delete_error
               (Notification.set_retryCount retryCount
                  (Notification.set_status "pending" notification))) in
        let db' :=
          updateNotification now id [SetStatus "pending"; SetRetryCount retryCount] (db s) in
        (Returned (mkRetried true "Notification queued for retry" retryCount),
         with_queue (queue s ++ [notification]) (with_db db' s))
  end.

(** [retryFailedNotification] awaits twice.  Its first part reads the row,
    makes the two checks and changes the object it read; its second part
    issues the UPDATE and, once that is done, pushes the object and
    returns.  Between the two, other calls of the service may run. *)
Definition retry_read (id : string) (s : t) : Completion Notification.t :=
  match getNotification id (db s) with
  | None => Threw "Notification not found"
  | Some notification =>
      if negb (bool_decide (Notification.status notification = Some "failed"))
      then Threw "Only failed notifications can be retried"
      else
        Returned
          (Notification.delete_failedAt
             (Notification.delete_error
                (Notification.set_retryCount (next_retryCount notification)
                   (Notification.set_status "pending" notification))))
  end.

Definition retry_write (now : Z) (id : string) (notification : Notification.t) (s : t)
  : Retried * t :=
  let retryCount := default 0 (Notification.retryCount notification) in
  (mkRetried true "Notification queued for retry" retryCount,
   with_queue (queue s ++ [notification])
     (with_db
        (updateNotification now id [SetStatus "pending"; SetRetryCount retryCount] (db s))
        s)).

End NotificationService.

(** ** The running process

    The service reacts to calls of its methods and to the interval timer.
    A batch started by a tick stays in flight while its members run; each
    member runs [processNotification] on its own record, the members of a
    batch in any order; when none is left, [Promise.allSettled] resolves
    and the callback's [finally] clears the flag.  [in_flight] records the
    batches started and not yet settled, with the members still to run.
    A submission, a retry and a purge are one step each: the parts of one
    call run with nothing in between (two retries that overlap are
    [overlapping_retries] below). *)

Module Machine.

Import DatabaseService NotificationService.

Record t : Type := make {
  service : NotificationService.t;
  in_flight : list (list Notification.t)
}.

Inductive Event : Type :=
| Submit (now : Z) (n : Notification.t)
| SubmitBulk (now : Z) (uuid : nat -> string) (notifications : list (Ref Request.t))
| Retry (now : Z) (id : string)
| Purge (now : Z) (daysToKeep : nat)
| Tick
| Member (now : Z) (b i : nat)
| Settle (b : nat).

Definition step (config : Config.t) (e : Event) (m : t) : t :=
  match e with
  | Submit now n =>
      make (sendNotification now n (service m)).2 (in_flight m)
  | SubmitBulk now uuid notifications =>
      make (sendBulkNotifications now uuid notifications (service m)).2 (in_flight m)
  | Retry now id =>
      make (retryFailedNotification now id (service m)).2 (in_flight m)
  | Purge now daysToKeep =>
      make (with_db (deleteOldNotifications now daysToKeep (db (service m))).2 (service m))
        (in_flight m)
  | Tick =>
      match tick_start config (service m) with
      | (None, s) => make s (in_flight m)
      | (Some batch, s) => make s (in_flight m ++ [batch])
      end
  | Member now b i =>
      match in_flight m !! b with
      | Some batch =>
          match batch !! i with
          | Some n =>
              make (dispatch_member now n (service m)).2
                (<[b := delete i batch]> (in_flight m))
          | None => m
          end
      | None => m
      end
  | Settle b =>
      match in_flight m !! b with
      | Some [] => make (tick_finish (service m)) (delete b (in_flight m))
      | _ => m
      end
  end.

Definition init (config : Config.t) (clients : Clients.t) (database : table) : t :=
  make (constructor config clients database) [].

Fixpoint run (config : Config.t) (events : list Event) (m : t) : t :=
  match events with
  | [] => m
  | e :: rest => run config rest (step config e m)
  end.

Inductive reachable (config : Config.t) (m0 : t) : t -> Prop :=
| reachable_init : reachable config m0 m0
| reachable_step (e : Event) (m : t) :
    reachable config m0 m -> reachable config m0 (step config e m).

(** The flag is set exactly while one batch is in flight. *)
Definition one_batch (m : t) : Prop :=
  (processing (service m) = false /\ in_flight m = []) \/
  (processing (service m) = true /\ exists batch, in_flight m = [batch]).

End Machine.

(** ** Sample data *)

Module Sample.

Import DatabaseService NotificationService.

(** The defaults of src/config/config.js. *)
Definition config : Config.t :=
  Config.make "notification-service" "notifications@company.com" "+1234567890"
    "webhook_secret_key" 5000 true true true true 100.

(** The same with the SMS channel switched off (ENABLE_SMS=false). *)
Definition config_without_sms : Config.t :=
  Config.make "notification-service" "notifications@company.com" "+1234567890"
    "webhook_secret_key" 5000 true false true true 100.

(** The same with BATCH_SIZE=2. *)
Definition config_batch2 : Config.t :=
  Config.make "notification-service" "notifications@company.com" "+1234567890"
    "webhook_secret_key" 5000 true true true true 2.

(** External services that accept every message. *)
Definition clients_up : Clients.t :=
  Clients.make
    (fun _ => Returned (EmailProvider.mkMailInfo (Some "<1@example.com>") (Some "250 OK")))
    (fun o => Returned (SMSProvider.mkMessage (Some "SM1") (Some "sent")
                          (SMSProvider.to o) (Some (SMSProvider.from o))))
    (fun _ => Returned (Some "mock_message_1"))
    (fun _ => Returned (WebhookProvider.mkResponse 200 "OK")).

(** External services that refuse every message, each with an [Error]. *)
Definition clients_down : Clients.t :=
  Clients.make
    (fun _ => Threw (new_Error "connect ECONNREFUSED"))
    (fun _ => Threw (new_Error "SMS delivery failed: Network timeout"))
    (fun _ => Threw (new_Error "messaging/server-unavailable"))
    (fun _ => Threw (new_Error "timeout of 5000ms exceeded")).

(** External services that reject with a value that is no [Error]: the
    HTTP client with [null], the others with a value without [message]. *)
Definition clients_odd : Clients.t :=
  Clients.make
    (fun _ => Threw (Obj None))
    (fun _ => Threw (Obj None))
    (fun _ => Threw (Obj None))
    (fun _ => Threw Null).

(** 2024-01-15T10:00:00.000Z and the two seconds after it. *)
Definition t0 : Z := 1705312800000.
Definition t1 : Z := 1705312801000.
Definition t2 : Z := 1705312802000.
Definition t3 : Z := 1705312803000.

(** A notification as the HTTP layer hands it to [sendNotification]. *)
Definition request (id type recipient : string) : Notification.t :=
  Notification.make id (Some recipient) (Some "hello") (Some type) (Some "normal")
    (Some ∅) (Some (Clock.toISOString t0)) (Some "pending")
    None None None None None None None.

Definition sms : Notification.t := request "n1" "sms" "+15551234567".

(** A row with a given status and outcome columns. *)
Definition row (id status : string) (error failedAt sentAt : option string) : Row.t :=
  Row.make id "+15551234567" "hello" "sms" "normal" status ∅ None error 0
    (Clock.toISOString t0) (Clock.toISOString t1) sentAt failedAt.

(** A provider that breaks the contract at the first attempt (it throws)
    and delivers at a retry. *)
Definition throws_once : Provider :=
  fun now n =>
    match Notification.retryCount n with
    | None => Threw "socket hang up"
    | Some _ =>
        Returned (DeliveryResult.make true "sms" (Some "SM2") None
                    (Some (Clock.toISOString now)) [])
    end.

(** The values successive calls of [uuid.v4()] return. *)
Definition uuid (k : nat) : string := "uuid-" +:+ String (ascii_of_nat (48 + k)) "".

(** [s.repeat(k)] *)
Fixpoint times (k : nat) (s : string) : string :=
  match k with
  | O => ""
  | S k' => s +:+ times k' s
  end.

(** A stored record created at the instant [created]. *)
Definition created_at (id : string) (created : Z) : Row.t :=
  Row.make id "a@example.com" "hello" "email" "normal" "sent" ∅ None None 0
    (Clock.toISOString created) (Clock.toISOString created)
    (Some (Clock.toISOString created)) None.

End Sample.

(** ** The four providers behind one name *)

Module Providers.

Inductive Kind : Type := Email | SMS | Push | Webhook.

(** The [try] block of the provider's [send]. *)
Definition send_body (kind : Kind) (config : Config.t) (clients : Clients.t)
  (now : Z) (n : Notification.t) : Outcome Thrown DeliveryResult.t :=
  match kind with
  | Email => EmailProvider.send_body config (Clients.sendMail clients) now n
  | SMS => SMSProvider.send_body config (Clients.create clients) now n
  | Push => PushProvider.send_body (Clients.messaging_send clients) n
  | Webhook => WebhookProvider.send_body config (Clients.post clients) now n
  end.

Definition send (kind : Kind) (config : Config.t) (clients : Clients.t) : Provider :=
  match kind with
  | Email => EmailProvider.send config (Clients.sendMail clients)
  | SMS => SMSProvider.send config (Clients.create clients)
  | Push => PushProvider.send (Clients.messaging_send clients)
  | Webhook => WebhookProvider.send config (Clients.post clients)
  end.

(** The key under which [initializeProviders] registers the provider. *)
Definition key (kind : Kind) : string :=
  match kind with
  | Email => "email"
  | SMS => "sms"
  | Push => "push"
  | Webhook => "webhook"
  end.

Definition enabled (kind : Kind) (config : Config.t) : bool :=
  match kind with
  | Email => Config.ENABLE_EMAIL config
  | SMS => Config.ENABLE_SMS config
  | Push => Config.ENABLE_PUSH config
  | Webhook => Config.ENABLE_WEBHOOK config
  end.

(** The provider's external client rejects some request with [error]. *)
Definition client_rejects (kind : Kind) (clients : Clients.t) (error : Thrown) : Prop :=
  match kind with
  | Email => exists mailOptions, Clients.sendMail clients mailOptions = Threw error
  | SMS => exists messageOptions, Clients.create clients messageOptions = Threw error
  | Push => exists message, Clients.messaging_send clients message = Threw error
  | Webhook => exists request, Clients.post clients request = Threw error
  end.

End Providers.

(** ** src/services/DatabaseService.js: the remaining queries *)

Module DatabaseReports.

Import DatabaseService.

(** SQLite orders NULL below every text. *)
Definition null_first_lt (a b : option string) : bool :=
  match a, b with
  | None, Some _ => true
  | Some x, Some y => Clock.text_lt x y
  | _, None => false
  end.

(** [ORDER BY failedAt DESC], as an insertion sort. *)
Fixpoint insert_failedAt_desc (r : Row.t) (rows : list Row.t) : list Row.t :=
  match rows with
  | [] => [r]
  | r' :: rest =>
      if null_first_lt (Row.failedAt r) (Row.failedAt r')
      then r' :: insert_failedAt_desc r rest
      else r :: rows
  end.

(** [SELECT * FROM notifications WHERE status = 'failed'
     ORDER BY failedAt DESC LIMIT ?], with [limit = 100] by default. *)
Definition getFailedNotifications (limit : option Z) (db : table) : list Notification.t :=
  map Notification.of_row
    (limit_offset (default 100 limit) 0
       (foldr insert_failedAt_desc []
          (filter (fun r => Row.status r = "failed") (map_to_list db).*2))).

(** The [switch] of [getNotificationStatistics]: the text SQLite computes
    for the start of the window. *)
Definition timeCondition (now : Z) (timeframe : string) : string :=
  if String.eqb timeframe "1h" then Clock.sqlite_datetime (now - 3600000)
  else if String.eqb timeframe "24h" then Clock.datetime_now_minus_days now 1
  else if String.eqb timeframe "7d" then Clock.datetime_now_minus_days now 7
  else if String.eqb timeframe "30d" then Clock.datetime_now_minus_days now 30
  else Clock.datetime_now_minus_days now 1.

(** The integer members of the row the statistics query yields.  The
    members computed in floating point ([avgProcessingTimeSeconds],
    [successRate], [failureRate]) are not part of the model. *)
Record Statistics : Type := mkStatistics {
  total : Z;
  sent : Z;
  failed : Z;
  pending : Z;
  processing : Z;
  email : Z;
  sms : Z;
  push : Z;
  webhook : Z
}.

(** [WHERE createdAt >= <timeCondition>] *)
Definition in_window (start : string) (r : Row.t) : bool :=
  negb (Clock.text_lt (Row.createdAt r) start).

(** [COUNT(CASE WHEN column = 'value' THEN 1 END)] *)
Definition count_where (p : Row.t -> bool) (rows : list Row.t) : Z :=
  Z.of_nat (length (filter (fun r => p r = true) rows)).

Definition getNotificationStatistics (now : Z) (timeframe : option string) (db : table)
  : Statistics :=
  let start := timeCondition now (default "24h" timeframe) in
  let rows := filter (fun r => in_window start r = true) (map_to_list db).*2 in
  mkStatistics (Z.of_nat (length rows))
    (count_where (fun r => String.eqb (Row.status r) "sent") rows)
    (count_where (fun r => String.eqb (Row.status r) "failed") rows)
    (count_where (fun r => String.eqb (Row.status r) "pending") rows)
    (count_where (fun r => String.eqb (Row.status r) "processing") rows)
    (count_where (fun r => String.eqb (Row.type r) "email") rows)
    (count_where (fun r => String.eqb (Row.type r) "sms") rows)
    (count_where (fun r => String.eqb (Row.type r) "push") rows)
    (count_where (fun r => String.eqb (Row.type r) "webhook") rows).

(** A character that [LIKE] takes literally: neither of its wildcards. *)
Definition literal (c : ascii) : bool :=
  negb (Ascii.eqb c "%") && negb (Ascii.eqb c "_").

(** Equal up to the case of ASCII letters. *)
Definition same_text_nocase (a b : list ascii) : Prop :=
  map lower a = map lower b.



(** The order of the failed listing: a row did not fail before the next. *)
Definition not_failed_before (a b : Row.t) : Prop :=
  null_first_lt (Row.failedAt a) (Row.failedAt b) = false.

End DatabaseReports.

(** ** src/providers/SMSProvider.js: the utility methods *)

Module SMSUtilities.

(** [Math.ceil(message.length / 153)] for a message longer than 160. *)
Definition calculateSMSSegments (message : string) : Z :=
  let len := Z.of_nat (Utf16.length message) in
  if len <=? 160 then 1 else (len + 152) / 153.

(** [phoneNumber.replace(/\D/g, '')] *)
Definition digits_of (phoneNumber : string) : list ascii :=
  List.filter SMSProvider.is_digit (list_ascii_of_string phoneNumber).

Definition startsWith_plus (phoneNumber : string) : bool :=
  match phoneNumber with
  | String c _ => Ascii.eqb c "+"
  | EmptyString => false
  end.

Definition formatPhoneNumber (phoneNumber : string) : string :=
  let digits := digits_of phoneNumber in
  if Nat.eqb (length digits) 10
  then "+1" +:+ string_of_list_ascii digits
  else if Nat.ltb 10 (length digits) && negb (startsWith_plus phoneNumber)
  then "+" +:+ string_of_list_ascii digits
  else phoneNumber.

Record Validation : Type := mkValidation {
  valid : bool;
  issues : list string;
  segments : Z
}.

(** [/[^\x00-\x7F]/.test(message)] *)
Definition has_non_ascii (message : string) : bool :=
  existsb (fun c => Nat.ltb 127 (nat_of_ascii c)) (list_ascii_of_string message).

Definition validateSMSContent (message : string) : Validation :=
  let issues :=
    ((if Nat.ltb 1600 (Utf16.length message)
      then ["Message exceeds maximum length for concatenated SMS"] else []) ++
     (if has_non_ascii message
      then ["Message contains non-ASCII characters that may cause encoding issues"]
      else []))%list in
  mkValidation (Nat.eqb (length issues) 0) issues (calculateSMSSegments message).

End SMSUtilities.

(** ** src/server.js: the route handlers of the notification API *)

Module Server.

Import DatabaseService NotificationService.

Inductive Body : Type :=
| ErrorBody (error : string) (message : option string)
| SendBody (notificationId : string) (status : string)
| StatusBody (notification : Notification.t)
| BulkBody (totalSent : Z) (results : list BulkResult.t).

Record Response : Type := mkResponse {
  status : Z;
  body : Body
}.

(** [POST /api/notifications/send]; [uuid] is the value of [uuidv4()]. *)
Definition post_send (now : Z) (uuid : string) (b : Request.t) (s : NotificationService.t)
  : Response * NotificationService.t :=
  if negb (truthy (Request.recipient b)) || negb (truthy (Request.message b))
     || negb (truthy (Request.type b))
  then (mkResponse 400
          (ErrorBody "Missing required fields: recipient, message, type" None), s)
  else
    let notification :=
      Notification.make uuid (Request.recipient b) (Request.message b) (Request.type b)
        (Some (js_or (Request.priority b) "normal"))
        (Some (default ∅ (Request.metadata b)))
        (Some (Clock.toISOString now)) (Some "pending")
        None None None None None None None in
    match sendNotification now notification s with
    | (Returned result, s') =>
        (mkResponse 200 (SendBody uuid (queued_status result)), s')
    | (Threw message, s') =>
        (mkResponse 500 (ErrorBody "Internal server error" (Some message)), s')
    end.

(** [GET /api/notifications/:id/status] *)
Definition get_status (id : string) (s : NotificationService.t) : Response :=
  match getNotificationStatus id s with
  | None => mkResponse 404 (ErrorBody "Notification not found" None)
  | Some notification => mkResponse 200 (StatusBody notification)
  end.

(** [POST /api/notifications/bulk-send]; [None] is a body without an array
    [notifications]. *)
Definition post_bulk_send (now : Z) (uuid : nat -> string)
  (notifications : option (list (Ref Request.t))) (s : NotificationService.t)
  : Response * NotificationService.t :=
  match notifications with
  | None => (mkResponse 400 (ErrorBody "notifications array is required" None), s)
  | Some notifications =>
      match sendBulkNotifications now uuid notifications s with
      | (Returned results, s') =>
          (mkResponse 200 (BulkBody (Z.of_nat (length results)) results), s')
      | (Threw message, s') =>
          (mkResponse 500 (ErrorBody "Internal server error" (Some message)), s')
      end
  end.

End Server.

(** ** Several ticks in a row *)

Module Processor.

Import NotificationService.


(** The loop of [sendBulkNotifications] over elements that are all
    objects, where no element ends it. *)
Fixpoint bulk_objects (now : Z) (uuid : nat -> string) (calls : nat)
  (notifications : list Request.t) (results : list BulkResult.t)
  (s : NotificationService.t) : list BulkResult.t * NotificationService.t :=
  match notifications with
  | [] => (results, s)
  | notificationData :: rest =>
      let '(entry, s') := bulk_item now uuid calls notificationData s in
      bulk_objects now uuid (bulk_calls calls notificationData) rest (results ++ [entry]) s'
  end.

(** Two calls of [retryFailedNotification] for one id that overlap: the
    second call reads the row before the first has written it; then each
    writes and pushes. *)
Definition overlapping_retries (now1 now2 : Z) (id : string) (s : NotificationService.t)
  : Completion (Retried * Retried) * NotificationService.t :=
  match retry_read id s, retry_read id s with
  | Returned first, Returned second =>
      let '(result1, s1) := retry_write now1 id first s in
      let '(result2, s2) := retry_write now2 id second s1 in
      (Returned (result1, result2), s2)
  | Threw message, _ => (Threw message, s)
  | _, Threw message => (Threw message, s)
  end.

(** The statuses a dispatch ends in. *)
Definition terminal (status : string) : Prop := status ∈ ["sent"; "failed"].

(** The entries of a bulk result that were accepted. *)
Definition accepted (results : list BulkResult.t) : list BulkResult.t :=
  filter (fun r => BulkResult.status r = "queued") results.

End Processor.

(** ** Conditions on the running process *)

Module Conditions.

Import DatabaseService NotificationService.

(** Every row is stored under its own id. *)
Definition keyed (db : table) : Prop :=
  forall id r, db !! id = Some r -> Row.id r = id.

(** The four values of the status column. *)
Definition known_status (status : string) : Prop :=
  status ∈ ["pending"; "processing"; "sent"; "failed"].

Definition statuses_known (db : table) : Prop :=
  forall id r, db !! id = Some r -> known_status (Row.status r).

(** A call as the HTTP layer and [sendBulkNotifications] make it: a
    notification handed to [sendNotification] carries status [pending]. *)
Definition submits_pending (e : Machine.Event) : Prop :=
  match e with
  | Machine.Submit _ n => js_or (Notification.status n) "pending" = "pending"
  | _ => True
  end.


(** The columns no statement of the service writes after the insert, and
    the retry counter. *)
Definition same_record (r r' : Row.t) : Prop :=
  Row.id r' = Row.id r /\
  Row.recipient r' = Row.recipient r /\
  Row.message r' = Row.message r /\
  Row.type r' = Row.type r /\
  Row.priority r' = Row.priority r /\
  Row.metadata r' = Row.metadata r /\
  Row.createdAt r' = Row.createdAt r /\
  Row.retryCount r <= Row.retryCount r'.


(** Every row is stored under its id with one of the four statuses. *)
Definition rows_sound (db : table) : Prop := keyed db /\ statuses_known db.

End Conditions.
(** * Properties *)

Import DatabaseService NotificationService.

(** ** Clock texts *)

Example toISOString_epoch :
  Clock.toISOString 0 = "1970-01-01T00:00:00.000Z".
Proof. reflexivity. Qed.

Example toISOString_2024 :
  Clock.toISOString 1709210096789 = "2024-02-29T12:34:56.789Z".
Proof. reflexivity. Qed.

Example sqlite_datetime_2024 :
  Clock.sqlite_datetime 1709210096789 = "2024-02-29 12:34:56".
Proof. reflexivity. Qed.

(** ** The record store *)

Lemma updateNotification_lookup now id updates (db : table) :
  updateNotification now id updates db !! id
  = (fun r => touch now (foldl assign r updates)) <$> db !! id.
Proof. unfold updateNotification. apply lookup_alter_eq. Qed.

Lemma updateNotification_lookup_ne now id id' updates (db : table) :
  id ≠ id' -> updateNotification now id updates db !! id' = db !! id'.
Proof. intros Hne. unfold updateNotification. by apply lookup_alter_ne. Qed.

Lemma updateNotification_absent now id updates (db : table) :
  db !! id = None -> updateNotification now id updates db = db.
Proof.
  intros Hnone. apply map_eq. intros k.
  destruct (decide (id = k)) as [->|Hne].
  - by rewrite updateNotification_lookup, Hnone.
  - by apply updateNotification_lookup_ne.
Qed.

(** ** Dispatch write-back *)

Lemma processNotification_returned now n s result :
  call_provider s now (Notification.set_status "processing" n) = Returned result ->
  processNotification now n s
  = (Returned result,
     Notification.set_sentAt (Clock.toISOString now)
       (Notification.set_providerResponse result
          (Notification.set_status
             (if DeliveryResult.success result then "sent" else "failed")
             (Notification.set_status "processing" n))),
     updateNotification now (Notification.id n)
       [SetStatus (if DeliveryResult.success result then "sent" else "failed");
        SetProviderResponse result; SetSentAt (Clock.toISOString now)]
       (updateNotification now (Notification.id n) [SetStatus "processing"] (db s))).
Proof. intros Hcall. unfold processNotification. by rewrite Hcall. Qed.

Lemma processNotification_threw now n s message :
  call_provider s now (Notification.set_status "processing" n) = Threw message ->
  processNotification now n s
  = (Threw message,
     Notification.set_failedAt (Clock.toISOString now)
       (Notification.set_error message
          (Notification.set_status "failed" (Notification.set_status "processing" n))),
     updateNotification now (Notification.id n)
       [SetStatus "failed"; SetError message; SetFailedAt (Clock.toISOString now)]
       (updateNotification now (Notification.id n) [SetStatus "processing"] (db s))).
Proof. intros Hcall. unfold processNotification. by rewrite Hcall. Qed.

(** What the write-back of a returned result does to the row: status,
    [providerResponse] and [sentAt] are written, [error] and [failedAt] are
    left as they were. *)
Lemma processNotification_returned_row now n s result row :
  call_provider s now (Notification.set_status "processing" n) = Returned result ->
  db s !! Notification.id n = Some row ->
  exists row',
    (processNotification now n s).2 !! Notification.id n = Some row' /\
    Row.status row' = (if DeliveryResult.success result then "sent" else "failed") /\
    Row.providerResponse row' = Some result /\
    Row.sentAt row' = Some (Clock.toISOString now) /\
    Row.error row' = Row.error row /\
    Row.failedAt row' = Row.failedAt row /\
    Row.retryCount row' = Row.retryCount row.
Proof.
  intros Hcall Hrow. rewrite (processNotification_returned _ _ _ _ Hcall). simpl.
  rewrite !updateNotification_lookup, Hrow. simpl. eexists. split; [reflexivity|].
  by repeat split.
Qed.

(** What the write-back of a thrown error does to the row: status, [error]
    and [failedAt] are written, [providerResponse] and [sentAt] are left as
    they were. *)
Lemma processNotification_threw_row now n s message row :
  call_provider s now (Notification.set_status "processing" n) = Threw message ->
  db s !! Notification.id n = Some row ->
  exists row',
    (processNotification now n s).2 !! Notification.id n = Some row' /\
    Row.status row' = "failed" /\
    Row.error row' = Some message /\
    Row.failedAt row' = Some (Clock.toISOString now) /\
    Row.providerResponse row' = Row.providerResponse row /\
    Row.sentAt row' = Row.sentAt row /\
    Row.retryCount row' = Row.retryCount row.
Proof.
  intros Hcall Hrow. rewrite (processNotification_threw _ _ _ _ Hcall). simpl.
  rewrite !updateNotification_lookup, Hrow. simpl. eexists. split; [reflexivity|].
  by repeat split.
Qed.

(** C1.  A notification whose provider resolves with [success = false]:
    the SMS gateway refuses the message, [SMSProvider.send] returns its
    failure object, and the tick writes the row back with status [failed],
    the result in [providerResponse] and [sentAt] set, while [error] and
    [failedAt] stay empty. *)
Theorem unsuccessful_send_written_back_with_sentAt :
  let s0 := constructor Sample.config Sample.clients_down ∅ in
  let s1 := (sendNotification Sample.t0 Sample.sms s0).2 in
  let s2 := (tick Sample.config Sample.t1 s1).2 in
  exists row result,
    db s2 !! "n1" = Some row /\
    Row.status row = "failed" /\
    Row.providerResponse row = Some result /\
    DeliveryResult.success result = false /\
    Row.sentAt row = Some "2024-01-15T10:00:01.000Z" /\
    Row.error row = None /\
    Row.failedAt row = None.
Proof.
  vm_compute. do 2 eexists. split; [reflexivity|]. by repeat split.
Qed.

(** ** Retry *)

Lemma retryFailedNotification_absent now id s :
  db s !! id = None ->
  retryFailedNotification now id s = (Threw "Notification not found", s).
Proof.
  intros Hnone. unfold retryFailedNotification, getNotification. by rewrite Hnone.
Qed.

Lemma retryFailedNotification_not_failed now id s row :
  db s !! id = Some row -> Row.status row ≠ "failed" ->
  retryFailedNotification now id s
  = (Threw "Only failed notifications can be retried", s).
Proof.
  intros Hrow Hstatus. unfold retryFailedNotification, getNotification.
  rewrite Hrow. simpl. rewrite bool_decide_eq_false_2; [done|]. congruence.
Qed.

(** What a retry of a failed record does: the row gets status [pending]
    and the incremented [retryCount] and keeps every other column, [error]
    and [failedAt] included; the object pushed on the queue has both
    deleted. *)
Lemma retryFailedNotification_failed now id s row :
  db s !! id = Some row -> Row.status row = "failed" ->
  exists row' n',
    retryFailedNotification now id s
    = (Returned (mkRetried true "Notification queued for retry" (Row.retryCount row + 1)),
       make (<[id := row']> (db s)) (providers s) (queue s ++ [n']) (processing s)) /\
    Row.status row' = "pending" /\
    Row.retryCount row' = Row.retryCount row + 1 /\
    Row.error row' = Row.error row /\
    Row.failedAt row' = Row.failedAt row /\
    Row.sentAt row' = Row.sentAt row /\
    Row.providerResponse row' = Row.providerResponse row /\
    Notification.id n' = Row.id row /\
    Notification.status n' = Some "pending" /\
    Notification.retryCount n' = Some (Row.retryCount row + 1) /\
    Notification.error n' = None /\
    Notification.failedAt n' = None.
Proof.
  intros Hrow Hstatus. unfold retryFailedNotification, getNotification.
  rewrite Hrow. simpl. rewrite Hstatus. simpl.
  do 2 eexists. split.
  - unfold with_queue, with_db, updateNotification. simpl. f_equal. f_equal.
    apply map_eq. intros k. destruct (decide (id = k)) as [->|Hne].
    + rewrite lookup_alter_eq, Hrow, lookup_insert_eq. reflexivity.
    + by rewrite lookup_alter_ne, lookup_insert_ne.
  - by repeat split.
Qed.

(** C2.  Retry of a failed record while another notification waits in the
    queue: the result carries the incremented count, the row is [pending]
    with the incremented count, the retried object is at the tail of the
    queue and has no [error] and no [failedAt] -- and the row in the store
    still has both. *)
Theorem retry_leaves_error_and_failedAt_in_store :
  let failed := Sample.row "n1" "failed" (Some "No provider found for notification type: sms")
                  (Some "2024-01-15T10:00:01.000Z") None in
  let waiting := Sample.request "n2" "email" "a@example.com" in
  let s := make {["n1" := failed]} ∅ [waiting] false in
  exists retried s' row' n',
    retryFailedNotification Sample.t2 "n1" s = (Returned retried, s') /\
    retried_retryCount retried = 1 /\
    db s' !! "n1" = Some row' /\
    Row.status row' = "pending" /\
    Row.retryCount row' = 1 /\
    queue s' = [waiting; n'] /\
    Notification.id n' = "n1" /\
    Notification.error n' = None /\
    Notification.failedAt n' = None /\
    Row.error row' = Some "No provider found for notification type: sms" /\
    Row.failedAt row' = Some "2024-01-15T10:00:01.000Z".
Proof.
  vm_compute. do 4 eexists. split; [reflexivity|]. split; [reflexivity|].
  split; [reflexivity|]. by repeat split.
Qed.

(** C4.  A retry of an absent record fails with "Notification not found",
    a retry of a record whose status is pending, processing or sent fails
    with "Only failed notifications can be retried"; either way the
    service (store, queue, flag) is exactly as before. *)
Theorem retry_rejected_without_mutation now id s :
  (forall row, db s !! id = Some row ->
               Row.status row ∈ ["pending"; "processing"; "sent"]) ->
  retryFailedNotification now id s
  = (Threw (match db s !! id with
            | None => "Notification not found"
            | Some _ => "Only failed notifications can be retried"
            end), s).
Proof.
  intros Hstatus. destruct (db s !! id) as [row|] eqn:Hrow.
  - apply (retryFailedNotification_not_failed _ _ _ row Hrow).
    specialize (Hstatus row eq_refl). intros Hfailed.
    rewrite Hfailed in Hstatus. apply list_elem_of_In in Hstatus.
    simpl in Hstatus. destruct Hstatus as [H|[H|[H|[]]]]; discriminate.
  - by apply retryFailedNotification_absent.
Qed.

Lemma retry_rejected_without_mutation_witness :
  let s := make {["n1" := Sample.row "n1" "sent" None None (Some "2024-01-15T10:00:01.000Z")]}
             ∅ [Sample.request "n2" "email" "a@b.com"] true in
  retryFailedNotification Sample.t2 "n1" s
  = (Threw "Only failed notifications can be retried", s) /\
  retryFailedNotification Sample.t2 "n3" s = (Threw "Notification not found", s).
Proof.
  split.
  - apply (retry_rejected_without_mutation Sample.t2 "n1").
    intros row Hrow. vm_compute in Hrow. injection Hrow as <-. vm_compute.
    apply list_elem_of_In. simpl. tauto.
  - apply (retry_rejected_without_mutation Sample.t2 "n3").
    intros row Hrow. vm_compute in Hrow. discriminate.
Defined.

(** ** Providers *)

(** The four [send] methods have one shape: the [try] block, and a [catch]
    block that builds the failure object from [error.message]. *)
Lemma send_caught {A : Type} (body : Outcome Thrown A) (failure : option string -> A) :
  let sent :=
    try_catch body (fun error =>
      bind (message_of error) (fun message => Returned (failure message))) in
  (forall value, body = Returned value -> sent = Returned value) /\
  (forall message, body = Threw (Obj message) -> sent = Returned (failure message)) /\
  (forall error, body = Threw error -> nullish error = true ->
     sent = Threw (unreadable error "message")).
Proof.
  simpl. split; [|split].
  - by intros value ->.
  - by intros message ->.
  - intros error -> Hnull. by destruct error.
Qed.

Lemma provider_send_caught kind config clients now n :
  let body := Providers.send_body kind config clients now n in
  let sent := Providers.send kind config clients now n in
  (forall value, body = Returned value -> sent = Returned value) /\
  (forall message, body = Threw (Obj message) ->
     exists result,
       sent = Returned result /\
       DeliveryResult.success result = false /\
       DeliveryResult.error result = message /\
       DeliveryResult.provider result = Providers.key kind) /\
  (forall error, body = Threw error -> nullish error = true ->
     sent = Threw (unreadable error "message")).
Proof.
  destruct kind; simpl.
  - destruct (send_caught (EmailProvider.send_body config (Clients.sendMail clients) now n)
                (EmailProvider.send_failure now)) as (Hv & Hm & He).
    split; [exact Hv|]. split; [|exact He]. intros message Hbody. eauto 10.
  - destruct (send_caught (SMSProvider.send_body config (Clients.create clients) now n)
                (SMSProvider.send_failure now)) as (Hv & Hm & He).
    split; [exact Hv|]. split; [|exact He]. intros message Hbody. eauto 10.
  - destruct (send_caught (PushProvider.send_body (Clients.messaging_send clients) n)
                PushProvider.send_failure) as (Hv & Hm & He).
    split; [exact Hv|]. split; [|exact He]. intros message Hbody. eauto 10.
  - destruct (send_caught (WebhookProvider.send_body config (Clients.post clients) now n)
                WebhookProvider.send_failure) as (Hv & Hm & He).
    split; [exact Hv|]. split; [|exact He]. intros message Hbody. eauto 10.
Qed.

Lemma bind_threw {E A B : Type} (c : Outcome E A) (k : A -> Outcome E B) error :
  bind c k = Threw error ->
  c = Threw error \/ exists v, c = Returned v /\ k v = Threw error.
Proof. destruct c as [v|e]; simpl; [eauto|]. intros [= ->]. by left. Qed.

(** The provider's own code throws [Error] objects only: whatever else the
    [try] block ends with, the external client rejected with it. *)
Lemma send_body_threw kind config clients now n error :
  Providers.send_body kind config clients now n = Threw error ->
  (exists text, error = new_Error text) \/ Providers.client_rejects kind clients error.
Proof.
  intros Hbody. destruct kind; simpl in *.
  - unfold EmailProvider.send_body in Hbody.
    apply bind_threw in Hbody as [Hclient|(info & _ & [=])]. eauto.
  - unfold SMSProvider.send_body in Hbody.
    destruct (negb _); [injection Hbody as <-; eauto|].
    apply bind_threw in Hbody as [Hformat|(message & _ & Hbody)].
    + destruct (SMSProvider.formatSMSMessage config n); [discriminate|].
      injection Hformat as <-. eauto.
    + apply bind_threw in Hbody as [Hclient|(receipt & _ & [=])]. eauto.
  - unfold PushProvider.send_body in Hbody.
    apply bind_threw in Hbody as [Hclient|(response & _ & [=])]. eauto.
  - unfold WebhookProvider.send_body in Hbody.
    apply bind_threw in Hbody as [Hclient|(response & _ & [=])]. eauto.
Qed.

Lemma send_body_nullish kind config clients now n error :
  Providers.send_body kind config clients now n = Threw error ->
  nullish error = true ->
  Providers.client_rejects kind clients error.
Proof.
  intros Hbody Hnull.
  destruct (send_body_threw kind config clients now n error Hbody) as [[text ->]|Hclient];
    [discriminate|done].
Qed.




(** The cases of tests/notification.test.js. *)
Example isValidPhoneNumber_tests :
  SMSProvider.isValidPhoneNumber (Some "+1555123456") = true /\
  SMSProvider.isValidPhoneNumber (Some "invalid") = false.
Proof. split; reflexivity. Qed.

Example generateSubject_test :
  EmailProvider.generateSubject Sample.config
    (Notification.make "t" None None None (Some "high")
       (Some {["subject" := "Custom Subject"]}) None None None None None None None
       None None)
  = "Custom Subject".
Proof. reflexivity. Qed.

(** The client's rejection with an [Error] is one of the internal failures. *)
Example sms_gateway_rejection :
  Providers.send Providers.SMS Sample.config Sample.clients_down Sample.t1 Sample.sms
  = Returned (DeliveryResult.make false "sms" None
                (Some "SMS delivery failed: Network timeout")
                (Some "2024-01-15T10:00:01.000Z") []).
Proof. reflexivity. Qed.

Example sms_invalid_number :
  Providers.send Providers.SMS Sample.config Sample.clients_up Sample.t1
    (Sample.request "n9" "sms" "555-1234")
  = Returned (DeliveryResult.make false "sms" None
                (Some "Invalid phone number format")
                (Some "2024-01-15T10:00:01.000Z") []).
Proof. reflexivity. Qed.

(** The registry holds exactly the enabled providers. *)
Lemma initializeProviders_lookup config clients key :
  initializeProviders config clients !! key
  = if decide (key = "webhook") then
      (if Config.ENABLE_WEBHOOK config
       then Some (Providers.send Providers.Webhook config clients) else None)
    else if decide (key = "push") then
      (if Config.ENABLE_PUSH config
       then Some (Providers.send Providers.Push config clients) else None)
    else if decide (key = "sms") then
      (if Config.ENABLE_SMS config
       then Some (Providers.send Providers.SMS config clients) else None)
    else if decide (key = "email") then
      (if Config.ENABLE_EMAIL config
       then Some (Providers.send Providers.Email config clients) else None)
    else None.
Proof.
  unfold initializeProviders.
  destruct (Config.ENABLE_EMAIL config), (Config.ENABLE_SMS config),
    (Config.ENABLE_PUSH config), (Config.ENABLE_WEBHOOK config);
    repeat case_decide; subst; simplify_map_eq; reflexivity.
Qed.

Lemma initializeProviders_kind config clients kind :
  initializeProviders config clients !! Providers.key kind
  = if Providers.enabled kind config
    then Some (Providers.send kind config clients) else None.
Proof.
  rewrite initializeProviders_lookup. destruct kind; simpl;
    repeat case_decide; try discriminate; reflexivity.
Qed.

(** A channel switched off by its flag has no provider in the service. *)
Lemma disabled_kind_unregistered config clients database kind :
  Providers.enabled kind config = false ->
  providers (constructor config clients database) !! Providers.key kind = None.
Proof. intros Hoff. simpl. by rewrite initializeProviders_kind, Hoff. Qed.

Lemma initializeProviders_some config clients key provider :
  initializeProviders config clients !! key = Some provider ->
  exists kind,
    key = Providers.key kind /\ Providers.enabled kind config = true /\
    provider = Providers.send kind config clients.
Proof.
  rewrite initializeProviders_lookup. intros Hlookup.
  repeat case_decide; try discriminate;
    repeat match type of Hlookup with
           | (if ?b then _ else _) = _ => destruct b eqn:?
           end; try discriminate; injection Hlookup as <-; subst key;
    first [ by exists Providers.Webhook | by exists Providers.Push
          | by exists Providers.SMS | by exists Providers.Email ].
Qed.

(** ** Missing provider *)






(** The interval callback never rejects. *)
Lemma tick_returns config now s : (tick config now s).1 = Returned tt.
Proof.
  unfold tick. destruct (tick_start config s) as [[batch|] s']; [|reflexivity].
  by destruct (dispatch_batch now batch s').
Qed.

(** Submission and the next tick, end to end. *)
Example missing_provider_end_to_end :
  let s0 := constructor Sample.config_without_sms Sample.clients_up ∅ in
  let s1 := (sendNotification Sample.t0 Sample.sms s0).2 in
  let s2 := (tick Sample.config_without_sms Sample.t1 s1).2 in
  queue s1 = [Sample.sms] /\
  queue s2 = [] /\
  processing s2 = false /\
  (Row.status <$> db s2 !! "n1") = Some "failed" /\
  (Row.error <$> db s2 !! "n1")
  = Some (Some "No provider found for notification type: sms") /\
  (Row.failedAt <$> db s2 !! "n1") = Some (Some "2024-01-15T10:00:01.000Z").
Proof. vm_compute. by repeat split. Qed.

(** C3.  A record that failed for want of a provider, was retried after
    the channel was switched on, and was then delivered: its row is [sent]
    and holds both timestamps and both outcome payloads. *)
Theorem retried_record_holds_both_outcomes :
  let s0 := constructor Sample.config_without_sms Sample.clients_up ∅ in
  let s1 := (sendNotification Sample.t0 Sample.sms s0).2 in
  let s2 := (tick Sample.config_without_sms Sample.t1 s1).2 in
  let s3 := constructor Sample.config Sample.clients_up (db s2) in
  let s4 := (retryFailedNotification Sample.t2 "n1" s3).2 in
  let s5 := (tick Sample.config Sample.t3 s4).2 in
  exists row result,
    db s5 !! "n1" = Some row /\
    Row.status row = "sent" /\
    Row.sentAt row = Some "2024-01-15T10:00:03.000Z" /\
    Row.failedAt row = Some "2024-01-15T10:00:01.000Z" /\
    Row.providerResponse row = Some result /\
    DeliveryResult.success result = true /\
    Row.error row = Some "No provider found for notification type: sms".
Proof.
  vm_compute. do 2 eexists. split; [reflexivity|]. by repeat split.
Qed.

(** The same end within one process, when a provider breaks its contract
    once: [send] throws at the first attempt and succeeds at the retry. *)
Example contract_violation_then_success :
  let s0 := make ∅ {["sms" := Sample.throws_once]} [] false in
  let s1 := (sendNotification Sample.t0 Sample.sms s0).2 in
  let s2 := (tick Sample.config Sample.t1 s1).2 in
  let s3 := (retryFailedNotification Sample.t2 "n1" s2).2 in
  let s4 := (tick Sample.config Sample.t3 s3).2 in
  (Row.status <$> db s2 !! "n1") = Some "failed" /\
  (Row.status <$> db s4 !! "n1") = Some "sent" /\
  (Row.sentAt <$> db s4 !! "n1") = Some (Some "2024-01-15T10:00:03.000Z") /\
  (Row.failedAt <$> db s4 !! "n1") = Some (Some "2024-01-15T10:00:01.000Z") /\
  (Row.error <$> db s4 !! "n1") = Some (Some "socket hang up").
Proof. vm_compute. by repeat split. Qed.

(** ** The queue processor *)

Lemma tick_start_busy config s :
  processing s = true -> tick_start config s = (None, s).
Proof. intros Hbusy. unfold tick_start. by rewrite Hbusy. Qed.

Lemma tick_start_empty config s :
  queue s = [] -> tick_start config s = (None, s).
Proof.
  intros Hempty. unfold tick_start. rewrite Hempty. simpl.
  by rewrite orb_true_r.
Qed.

Lemma tick_start_batch config s :
  processing s = false -> queue s ≠ [] ->
  tick_start config s
  = (Some (take (splice_count (Config.BATCH_SIZE config) (length (queue s))) (queue s)),
     make (db s) (providers s)
       (drop (splice_count (Config.BATCH_SIZE config) (length (queue s))) (queue s))
       true).
Proof.
  intros Hidle Hnonempty. unfold tick_start. rewrite Hidle.
  destruct (queue s) as [|n q]; [done|]. reflexivity.
Qed.

Lemma splice_count_nonneg deleteCount len :
  0 <= deleteCount ->
  splice_count deleteCount len = Z.to_nat (Z.min deleteCount (Z.of_nat len)).
Proof. intros Hpos. unfold splice_count. f_equal. lia. Qed.

(** A negative count removes nothing. *)
Lemma splice_count_negative deleteCount len :
  deleteCount <= 0 -> splice_count deleteCount len = 0%nat.
Proof. intros Hneg. unfold splice_count. lia. Qed.

(** Only the tick and its [finally] touch the flag. *)
Lemma sendNotification_processing now n s :
  processing (sendNotification now n s).2 = processing s.
Proof.
  unfold sendNotification.
  by destruct (saveNotification now n (db s)) as [[?|?] ?].
Qed.

Lemma bulk_item_processing now uuid calls d s :
  processing (bulk_item now uuid calls d s).2 = processing s.
Proof.
  unfold bulk_item.
  rewrite <- (sendNotification_processing now
                (bulk_notification now (bulk_id uuid calls d) d) s).
  by destruct (sendNotification now _ s) as [[q|message] s'].
Qed.

Lemma bulk_loop_processing now uuid notifications :
  forall calls results s,
    processing (bulk_loop now uuid calls notifications results s).2 = processing s.
Proof.
  induction notifications as [|[| |d] rest IH]; intros calls results s; try reflexivity.
  simpl. destruct (bulk_item now uuid calls d s) as [entry s'] eqn:Hitem.
  rewrite IH. by rewrite <- (bulk_item_processing now uuid calls d s), Hitem.
Qed.

Lemma retryFailedNotification_processing now id s :
  processing (retryFailedNotification now id s).2 = processing s.
Proof.
  unfold retryFailedNotification.
  destruct (getNotification id (db s)) as [n|]; [|reflexivity].
  by destruct (negb _).
Qed.

Lemma dispatch_member_frame now n s :
  processing (dispatch_member now n s).2 = processing s /\
  queue (dispatch_member now n s).2 = queue s /\
  providers (dispatch_member now n s).2 = providers s.
Proof.
  unfold dispatch_member. by destruct (processNotification now n s) as [[? ?] ?].
Qed.

Lemma one_batch_step config e m : Machine.one_batch m -> Machine.one_batch (Machine.step config e m).
Proof.
  intros Hinv. destruct e as [now n|now uuid ns|now id|now days| |now b i|b]; simpl.
  - unfold Machine.one_batch in *. simpl. by rewrite sendNotification_processing.
  - unfold Machine.one_batch in *. simpl. unfold sendBulkNotifications.
    by rewrite bulk_loop_processing.
  - unfold Machine.one_batch in *. simpl. by rewrite retryFailedNotification_processing.
  - exact Hinv.
  - destruct Hinv as [[Hidle Hnone]|[Hbusy Hone]].
    + destruct (decide (queue (Machine.service m) = [])) as [Hempty|Hnonempty].
      * rewrite tick_start_empty by done. by left.
      * rewrite tick_start_batch by done. right. simpl. rewrite Hnone. eauto.
    + rewrite tick_start_busy by done. by right.
  - destruct Hinv as [[Hidle Hnone]|[Hbusy [batch Hone]]].
    + rewrite Hnone. simpl. by left.
    + rewrite Hone. destruct b as [|b]; simpl; [|by right; eauto].
      destruct (batch !! i) as [n|]; [|by right; eauto].
      right. simpl. destruct (dispatch_member_frame now n (Machine.service m)) as [-> _].
      eauto.
  - destruct Hinv as [[Hidle Hnone]|[Hbusy [batch Hone]]].
    + rewrite Hnone. simpl. by left.
    + rewrite Hone. destruct b as [|b]; simpl; [|by right; eauto].
      destruct batch as [|n batch]; [|by right; eauto].
      left. simpl. done.
Qed.

Lemma one_batch_reachable config clients database m :
  Machine.reachable config (Machine.init config clients database) m -> Machine.one_batch m.
Proof.
  induction 1 as [|e m Hreach IH].
  - by left.
  - by apply one_batch_step.
Qed.

Lemma reachable_run config m0 events :
  forall m, Machine.reachable config m0 m ->
            Machine.reachable config m0 (Machine.run config events m).
Proof.
  induction events as [|e rest IH]; intros m Hreach; simpl; [done|].
  apply IH. by constructor.
Qed.

(** C5.  A tick of the running service, for a positive batch size.  While
    a batch is in flight the tick changes nothing; with no batch in flight
    and an empty queue it changes nothing either; otherwise it takes the
    first min(BATCH_SIZE, queue length) entries of the queue, in queue
    order, as the new batch and leaves the rest queued.  At most one batch
    is in flight afterwards. *)
Theorem tick_takes_batch_from_head config clients database m :
  0 < Config.BATCH_SIZE config ->
  Machine.reachable config (Machine.init config clients database) m ->
  let m' := Machine.step config Machine.Tick m in
  let q := queue (Machine.service m) in
  let k := Z.to_nat (Z.min (Config.BATCH_SIZE config) (Z.of_nat (length q))) in
  (length (Machine.in_flight m') <= 1)%nat /\
  (Machine.in_flight m ≠ [] -> m' = m) /\
  (Machine.in_flight m = [] -> q = [] -> m' = m) /\
  (Machine.in_flight m = [] -> q ≠ [] ->
   Machine.in_flight m' = [take k q] /\
   Z.of_nat (length (take k q)) = Z.min (Config.BATCH_SIZE config) (Z.of_nat (length q)) /\
   queue (Machine.service m') = drop k q /\
   db (Machine.service m') = db (Machine.service m) /\
   processing (Machine.service m') = true).
Proof.
  intros Hsize Hreach m' q k.
  pose proof (one_batch_reachable _ _ _ _ Hreach) as Hinv.
  pose proof (one_batch_step config Machine.Tick m Hinv) as Hinv'.
  fold m' in Hinv'. split; [|split; [|split]].
  - destruct Hinv' as [[_ ->]|[_ [batch ->]]]; simpl; lia.
  - intros Hflight. destruct Hinv as [[_ Hnone]|[Hbusy _]]; [done|].
    subst m'. simpl. rewrite tick_start_busy by done. by destruct m.
  - intros _ Hempty. subst m'. simpl. rewrite tick_start_empty by done.
    by destruct m.
  - intros Hnone Hnonempty. destruct Hinv as [[Hidle _]|[_ [batch Hone]]];
      [|congruence].
    subst m'. simpl. rewrite tick_start_batch by done. simpl.
    rewrite Hnone, splice_count_nonneg by lia. fold q k.
    split; [reflexivity|]. split; [|done].
    rewrite length_take. subst k. lia.
Qed.

Lemma tick_takes_batch_from_head_witness :
  let a := Sample.request "a" "email" "a@example.com" in
  let b := Sample.request "b" "email" "b@example.com" in
  let c := Sample.request "c" "email" "c@example.com" in
  let m0 := Machine.init Sample.config_batch2 Sample.clients_up ∅ in
  let m :=
    Machine.run Sample.config_batch2
      [Machine.Submit Sample.t0 a; Machine.Submit Sample.t0 b;
       Machine.Submit Sample.t0 c] m0 in
  let m' := Machine.step Sample.config_batch2 Machine.Tick m in
  Machine.in_flight m' = [[a; b]] /\
  queue (Machine.service m') = [c] /\
  Machine.step Sample.config_batch2 Machine.Tick m' = m'.
Proof.
  intros a b c m0 m m'.
  assert (Hsize : 0 < Config.BATCH_SIZE Sample.config_batch2) by (vm_compute; reflexivity).
  assert (Hm : Machine.reachable Sample.config_batch2 m0 m)
    by (apply reachable_run; constructor).
  assert (Hm' : Machine.reachable Sample.config_batch2 m0 m') by (by constructor).
  destruct (tick_takes_batch_from_head Sample.config_batch2 Sample.clients_up ∅ m
              Hsize Hm) as (_ & _ & _ & Htake).
  destruct (tick_takes_batch_from_head Sample.config_batch2 Sample.clients_up ∅ m'
              Hsize Hm') as (_ & Hskip & _ & _).
  destruct Htake as (Hflight & _ & Hqueue & _); [reflexivity|discriminate|].
  split; [exact Hflight|]. split; [exact Hqueue|].
  apply Hskip. vm_compute. discriminate.
Defined.

(** ** Bulk submission *)

Lemma sendNotification_threw now n s message s' :
  sendNotification now n s = (Threw message, s') -> s' = s.
Proof.
  unfold sendNotification.
  destruct (saveNotification now n (db s)) as [[?|?] ?]; intros [=]; by subst.
Qed.

Import Processor.

Lemma bulk_objects_results now uuid notifications :
  forall calls results s,
    bulk_objects now uuid calls notifications results s
    = ((results ++ (bulk_objects now uuid calls notifications [] s).1)%list,
       (bulk_objects now uuid calls notifications [] s).2).
Proof.
  induction notifications as [|d rest IH]; intros calls results s; simpl.
  - by rewrite app_nil_r.
  - destruct (bulk_item now uuid calls d s) as [entry s'].
    rewrite (IH _ (results ++ [entry])%list), (IH _ ([] ++ [entry])%list). simpl.
    by rewrite <- app_assoc.
Qed.

Lemma bulk_objects_app now uuid front :
  forall back calls s,
    bulk_objects now uuid calls (front ++ back) [] s
    = (((bulk_objects now uuid calls front [] s).1 ++
        (bulk_objects now uuid (foldl bulk_calls calls front) back []
           (bulk_objects now uuid calls front [] s).2).1)%list,
       (bulk_objects now uuid (foldl bulk_calls calls front) back []
          (bulk_objects now uuid calls front [] s).2).2).
Proof.
  induction front as [|d rest IH]; intros back calls s; simpl.
  - by destruct (bulk_objects now uuid calls back [] s).
  - destruct (bulk_item now uuid calls d s) as [entry s'].
    rewrite (bulk_objects_results now uuid (rest ++ back)),
      (bulk_objects_results now uuid rest _ ([] ++ [entry])%list).
    rewrite IH. simpl. reflexivity.
Qed.

Lemma bulk_objects_length now uuid notifications :
  forall calls s,
    length (bulk_objects now uuid calls notifications [] s).1 = length notifications.
Proof.
  induction notifications as [|d rest IH]; intros calls s; simpl; [reflexivity|].
  destruct (bulk_item now uuid calls d s) as [entry s'].
  rewrite bulk_objects_results. simpl. by rewrite IH.
Qed.

(** Up to its first element that is [null] or [undefined], the loop of
    [sendBulkNotifications] is the loop over objects; at that element it
    ends with the [TypeError], in the state the elements before it left. *)
Lemma bulk_loop_objects now uuid notifications :
  forall calls results s,
    bulk_loop now uuid calls (map Obj notifications) results s
    = (Returned (bulk_objects now uuid calls notifications results s).1,
       (bulk_objects now uuid calls notifications results s).2).
Proof.
  induction notifications as [|d rest IH]; intros calls results s; simpl; [done|].
  destruct (bulk_item now uuid calls d s) as [entry s']. apply IH.
Qed.

Lemma bulk_loop_nullish now uuid front element back :
  nullish element = true ->
  forall calls results s,
    bulk_loop now uuid calls (map Obj front ++ element :: back) results s
    = (Threw (unreadable element "id"),
       (bulk_objects now uuid calls front results s).2).
Proof.
  intros Hnull. induction front as [|d rest IH]; intros calls results s; simpl.
  - by destruct element.
  - destruct (bulk_item now uuid calls d s) as [entry s']. apply IH.
Qed.

Lemma elements_split (notifications : list (Ref Request.t)) :
  (exists objects, notifications = map Obj objects) \/
  (exists front element back,
     notifications = (map Obj front ++ element :: back)%list /\ nullish element = true).
Proof.
  induction notifications as [|element rest IH].
  - left. by exists [].
  - destruct element as [| |d].
    + right. by exists [], Null, rest.
    + right. by exists [], Undefined, rest.
    + destruct IH as [[objects ->]|(front & element & back & -> & Hnull)].
      * left. by exists (d :: objects).
      * right. by exists (d :: front), element, back.
Qed.

(** For an array of objects, [sendBulkNotifications] returns one entry per
    request, the i-th entry for the i-th request.  The i-th request is
    submitted with [sendNotification] in the state the requests before it
    left behind: when that succeeds the entry is [queued] and the state is
    the one [sendNotification] produced; when it fails the entry is [error]
    with the failure's message, the state is unchanged, and the loop goes
    on to the next request. *)
Lemma sendBulkNotifications_of_objects now uuid notifications s :
  exists results s',
    sendBulkNotifications now uuid (map Obj notifications) s = (Returned results, s') /\
    length results = length notifications /\
    forall i d, notifications !! i = Some d ->
      let calls := foldl bulk_calls 0%nat (take i notifications) in
      let before := (sendBulkNotifications now uuid (map Obj (take i notifications)) s).2 in
      let after := (sendBulkNotifications now uuid (map Obj (take (S i) notifications)) s).2 in
      let id := bulk_id uuid calls d in
      match sendNotification now (bulk_notification now id d) before with
      | (Returned queued, s') =>
          results !! i = Some (BulkResult.make id "queued" (Some queued) None) /\
          after = s'
      | (Threw message, _) =>
          results !! i
          = Some (BulkResult.make (js_or (Request.id d) "unknown") "error" None
                    (Some message)) /\
          after = before
      end.
Proof.
  unfold sendBulkNotifications. do 2 eexists.
  split; [apply bulk_loop_objects|]. split; [apply bulk_objects_length|].
  intros i d Hi. rewrite !bulk_loop_objects. cbn [snd].
  set (front := take i notifications).
  assert (Hentry :
    (bulk_objects now uuid 0 notifications [] s).1 !! i
    = Some (bulk_item now uuid (foldl bulk_calls 0%nat front) d
              (bulk_objects now uuid 0 front [] s).2).1).
  { rewrite <- (take_drop_middle notifications i d Hi). fold front.
    rewrite bulk_objects_app. simpl.
    destruct (bulk_item now uuid _ d _) as [entry s'].
    rewrite (bulk_objects_results now uuid (drop (S i) notifications)). simpl.
    rewrite lookup_app_r; rewrite bulk_objects_length; subst front;
      rewrite length_take_le by (apply lookup_lt_Some in Hi; lia); [|lia].
    by rewrite Nat.sub_diag. }
  assert (Hafter :
    (bulk_objects now uuid 0 (take (S i) notifications) [] s).2
    = (bulk_item now uuid (foldl bulk_calls 0%nat front) d
         (bulk_objects now uuid 0 front [] s).2).2).
  { rewrite (take_S_r notifications i d Hi). fold front.
    rewrite bulk_objects_app. simpl.
    by destruct (bulk_item now uuid _ d _) as [entry s']. }
  rewrite Hentry, Hafter. unfold bulk_item.
  destruct (sendNotification now _ _) as [[queued|message] s'] eqn:Hsend; simpl.
  - done.
  - split; [done|]. by apply sendNotification_threw in Hsend.
Qed.

(** Three requests, the second without a recipient: three entries in the
    order of the requests, the second an error, the first and the third
    stored and queued. *)
Example bulk_with_malformed_request :
  let good1 := Request.make (Some "a") (Some "a@example.com") (Some "hi") (Some "email") None None in
  let bad := Request.make (Some "b") None (Some "hi") (Some "email") None None in
  let good2 := Request.make None (Some "c@example.com") (Some "hi") (Some "email") None None in
  let s0 := constructor Sample.config Sample.clients_up ∅ in
  let out := sendBulkNotifications Sample.t0 Sample.uuid [Obj good1; Obj bad; Obj good2] s0 in
  (exists results,
     out.1 = Returned results /\
     map (fun r => (BulkResult.id r, BulkResult.status r)) results
     = [("a", "queued"); ("b", "error"); ("uuid-0", "queued")]) /\
  map Notification.id (queue out.2) = ["a"; "uuid-0"] /\
  (Row.status <$> db out.2 !! "a") = Some "pending" /\
  db out.2 !! "b" = None /\
  (Row.status <$> db out.2 !! "uuid-0") = Some "pending".
Proof. vm_compute. split; [eexists; split; reflexivity|]. by repeat split. Qed.

(** C8.  Three elements, the second [null] (the JSON body
    [{"notifications": [{...}, null, {...}]}] passes the route's
    [Array.isArray] check): the call is rejected with the [TypeError] of
    reading [id] of [null], so no result list is returned; the first
    request has been stored and queued by then, the third is never
    submitted. *)
Theorem bulk_null_element_rejects_whole_call :
  let first := Request.make (Some "a") (Some "a@example.com") (Some "hi") (Some "email") None None in
  let third := Request.make (Some "c") (Some "c@example.com") (Some "hi") (Some "email") None None in
  let s0 := constructor Sample.config Sample.clients_up ∅ in
  let out := sendBulkNotifications Sample.t0 Sample.uuid [Obj first; Null; Obj third] s0 in
  out.1 = Threw "Cannot read properties of null (reading 'id')" /\
  map Notification.id (queue out.2) = ["a"] /\
  (Row.status <$> db out.2 !! "a") = Some "pending" /\
  db out.2 !! "c" = None.
Proof. vm_compute. by repeat split. Qed.

(** ** Purge *)

Lemma deleteOldNotifications_lookup now daysToKeep (db : table) id r :
  (deleteOldNotifications now daysToKeep db).2 !! id = Some r
  <-> db !! id = Some r /\
      expired (Clock.datetime_now_minus_days now daysToKeep) r = false.
Proof. unfold deleteOldNotifications. simpl. apply map_lookup_filter_Some. Qed.


Lemma ascii_compare_refl (c : ascii) : Ascii.compare c c = Eq.
Proof. unfold Ascii.compare. apply N.compare_refl. Qed.

Lemma compare_common_prefix (prefix a b : string) :
  String.compare (prefix +:+ a) (prefix +:+ b) = String.compare a b.
Proof.
  induction prefix as [|c prefix IH]; simpl; [reflexivity|].
  by rewrite ascii_compare_refl.
Qed.

(** On the cutoff's calendar day the text of [createdAt] has [T] where the
    text of the cutoff has a space, so no record created on that day
    compares below the cutoff, at whatever time of the day it was created. *)
Lemma created_on_cutoff_day_not_expired (created cutoff : Z) (r : Row.t) :
  Row.createdAt r = Clock.toISOString created ->
  created / Clock.ms_per_day = cutoff / Clock.ms_per_day ->
  expired (Clock.sqlite_datetime cutoff) r = false.
Proof.
  intros Hcreated Hday.
  unfold expired, Clock.text_lt, String.ltb, Clock.toISOString, Clock.sqlite_datetime.
  rewrite Hcreated. unfold Clock.toISOString. rewrite Hday.
  by rewrite compare_common_prefix.
Qed.

(** C9.  A record created at 2024-01-01T00:00:01Z and a purge of records
    older than 30 days run at 2024-01-31T12:00:00Z: the cutoff is
    2024-01-01T12:00:00Z, the record was created before it, and the purge
    deletes nothing. *)
Theorem purge_keeps_record_created_before_cutoff :
  let created := 1704067201000 in
  let now := 1706702400000 in
  let age := 30 * Clock.ms_per_day in
  let db : table := {["old" := Sample.created_at "old" created]} in
  created < now - age /\
  (Row.createdAt <$> db !! "old") = Some "2024-01-01T00:00:01.000Z" /\
  Clock.datetime_now_minus_days now 30 = "2024-01-01 12:00:00" /\
  deleteOldNotifications now 30 db = (0, db).
Proof. vm_compute. by repeat split. Qed.

(** A day later the same record is deleted. *)
Example purge_deletes_record_of_an_earlier_day :
  let created := 1704067201000 in
  let now := 1706702400000 + Clock.ms_per_day in
  let db : table := {["old" := Sample.created_at "old" created]} in
  deleteOldNotifications now 30 db = (1, ∅).
Proof. vm_compute. reflexivity. Qed.

(** ** History *)

Lemma getNotifications_total options (db : table) :
  total (getNotifications options db)
  = Z.of_nat (length (notifications (getNotifications options db))).
Proof. reflexivity. Qed.

Lemma limit_offset_length {A : Type} (lim off : Z) (rows : list A) :
  0 <= lim ->
  Z.of_nat (length (limit_offset lim off rows))
  = Z.min lim (Z.max 0 (Z.of_nat (length rows) - Z.max 0 off)).
Proof.
  intros Hlim. unfold limit_offset.
  destruct (Z.ltb_spec lim 0) as [?|_]; [lia|].
  rewrite length_take, length_drop. lia.
Qed.

Lemma limit_offset_unbounded {A : Type} (lim off : Z) (rows : list A) :
  lim < 0 -> limit_offset lim off rows = drop (Z.to_nat off) rows.
Proof.
  intros Hlim. unfold limit_offset. by destruct (Z.ltb_spec lim 0) as [_|?]; [|lia].
Qed.

Lemma limit_offset_window {A : Type} (lim off : Z) (rows : list A) :
  0 <= lim -> limit_offset lim off rows = take (Z.to_nat lim) (drop (Z.to_nat off) rows).
Proof.
  intros Hlim. unfold limit_offset. by destruct (Z.ltb_spec lim 0) as [?|_]; [lia|].
Qed.

(** C10, as amended.  For every history query -- [getNotificationHistory]
    returns what [getNotifications] returns for the same options --
    [total] is the number of records in the returned page, never more than
    the number of records that match the filter.  With a non-negative limit the page is the
    limit/offset window of the matching records, newest first, so [total]
    is the number of matching records that remain after the offset, cut at
    the limit, and never exceeds the limit.  With a negative limit the page
    holds every matching record after the offset, and [total] is their
    number. *)
Theorem history_total_is_page_length options s :
  let page := getNotificationHistory options s in
  let matching := select_where options (db s) in
  let after_offset :=
    Z.max 0 (Z.of_nat (length matching) - Z.max 0 (page_offset page)) in
  page = getNotifications options (db s) /\
  page_limit page = default 50 (limit options) /\
  page_offset page = default 0 (offset options) /\
  total page = Z.of_nat (length (notifications page)) /\
  total page <= Z.of_nat (length matching) /\
  (0 <= page_limit page ->
   notifications page
   = map Notification.of_row
       (take (Z.to_nat (page_limit page)) (drop (Z.to_nat (page_offset page)) matching)) /\
   total page = Z.min (page_limit page) after_offset /\
   total page <= page_limit page) /\
  (page_limit page < 0 ->
   notifications page
   = map Notification.of_row (drop (Z.to_nat (page_offset page)) matching) /\
   total page = after_offset).
Proof.
  intros page matching after_offset.
  assert (Hpage : notifications page
                  = map Notification.of_row
                      (limit_offset (page_limit page) (page_offset page) matching))
    by reflexivity.
  split; [reflexivity|]. split; [reflexivity|]. split; [reflexivity|].
  split; [reflexivity|].
  assert (Htotal : total page
                   = Z.of_nat (length (limit_offset (page_limit page) (page_offset page)
                                         matching))).
  { change (total page) with (Z.of_nat (length (notifications page))).
    by rewrite Hpage, length_map. }
  split; [|split].
  - rewrite Htotal. unfold limit_offset.
    destruct (page_limit page <? 0); rewrite ?length_take, length_drop; lia.
  - intros Hlimit. rewrite Hpage, Htotal, limit_offset_window by done.
    split; [reflexivity|]. rewrite <- limit_offset_window by done.
    rewrite limit_offset_length by done. subst after_offset. split; [reflexivity|]. lia.
  - intros Hlimit. rewrite Hpage, Htotal, limit_offset_unbounded by done.
    split; [reflexivity|]. rewrite length_drop. subst after_offset. lia.
Qed.

Lemma history_total_is_page_length_witness :
  let db : table :=
    {["a" := Sample.created_at "a" Sample.t0;
      "b" := Sample.created_at "b" Sample.t1;
      "c" := Sample.created_at "c" Sample.t2]} in
  let s := make db ∅ [] false in
  let bounded := mkOptions (Some 2) None None None None None None in
  let unbounded := mkOptions (Some (-1)) (Some 1) None None None None None in
  length (select_where bounded db) = 3%nat /\
  total (getNotificationHistory bounded s) = 2 /\
  map Notification.id (notifications (getNotificationHistory bounded s)) = ["c"; "b"] /\
  total (getNotificationHistory unbounded s) = 2 /\
  map Notification.id (notifications (getNotificationHistory unbounded s)) = ["b"; "a"].
Proof.
  intros db s bounded unbounded.
  destruct (history_total_is_page_length bounded s) as (_ & _ & _ & _ & _ & Hwindow & _).
  destruct (history_total_is_page_length unbounded s) as (_ & _ & _ & _ & _ & _ & Hall).
  destruct Hwindow as (Hpage & Htotal & _); [vm_compute; discriminate|].
  destruct Hall as (Hpage' & Htotal'); [vm_compute; reflexivity|].
  split; [vm_compute; reflexivity|].
  split; [rewrite Htotal; vm_compute; reflexivity|].
  split; [rewrite Hpage; vm_compute; reflexivity|].
  split; [rewrite Htotal'; vm_compute; reflexivity|].
  rewrite Hpage'. vm_compute. reflexivity.
Defined.

(** C10, as stated, at a negative limit: [LIMIT -1] is no limit, the page
    holds every matching record and [total] exceeds the limit. *)
Lemma history_total_exceeds_negative_limit :
  let db : table :=
    {["a" := Sample.created_at "a" Sample.t0;
      "b" := Sample.created_at "b" Sample.t1]} in
  let s := make db ∅ [] false in
  let options := mkOptions (Some (-1)) None None None None None None in
  let page := getNotificationHistory options s in
  total page = 2 /\
  page_limit page = -1 /\
  ~ (total page = Z.of_nat (length (notifications page)) /\
     total page <= page_limit page).
Proof.
  vm_compute. do 2 (split; [reflexivity|]). intros (_ & Hle). by apply Hle.
Qed.

(** * Further properties of the code *)

From stdpp Require Import sorting.
Import DatabaseReports.

Local Open Scope string_scope.
Local Open Scope Z_scope.

(** ** The record store: insert, update, read *)



Lemma saveNotification_accepts now n (db : table) :
  (exists key db', saveNotification now n db = (Returned key, db'))
  <-> (is_Some (Notification.recipient n) /\ is_Some (Notification.message n) /\
       is_Some (Notification.type n) /\ db !! Notification.id n = None).
Proof.
  unfold saveNotification.
  destruct (Notification.recipient n), (Notification.message n), (Notification.type n),
    (db !! Notification.id n); split;
    try (intros (? & ? & [=]); fail);
    try (intros ([? [=]] & [? [=]] & [? [=]] & [=]); fail);
    try (intros (? & ? & ? & [=]); fail);
    intros _; eauto 10.
Qed.

(** X2.  [sendNotification] resolves exactly when recipient, message and
    type are present and the id is not in the store yet (an empty
    recipient counts as present); when it rejects, the service is left as
    it was: nothing is stored and nothing is queued. *)
Theorem sendNotification_accepts_iff now n s :
  ((exists q s', sendNotification now n s = (Returned q, s'))
   <-> (is_Some (Notification.recipient n) /\ is_Some (Notification.message n) /\
        is_Some (Notification.type n) /\ db s !! Notification.id n = None)) /\
  (forall message s', sendNotification now n s = (Threw message, s') -> s' = s).
Proof.
  split; [|intros message s'; apply sendNotification_threw].
  pose proof (saveNotification_accepts now n (db s)) as Haccepts.
  unfold sendNotification.
  destruct (saveNotification now n (db s)) as [[key|message] db'] eqn:Hsave; split.
  - intros _. apply Haccepts. eauto.
  - eauto.
  - intros (? & ? & [=]).
  - intros Hcond. apply Haccepts in Hcond. by destruct Hcond as (? & ? & [=]).
Qed.

(** ** The record store: listing *)

Lemma text_lt_asym a b : Clock.text_lt a b = true -> Clock.text_lt b a = false.
Proof.
  unfold Clock.text_lt, String.ltb. rewrite (String.compare_antisym b a).
  by destruct (String.compare a b).
Qed.

Lemma Sorted_take {A : Type} (R : A -> A -> Prop) (l : list A) :
  forall k, Sorted R l -> Sorted R (take k l).
Proof.
  induction l as [|x l IH]; intros [|k] Hsorted; simpl; try constructor.
  - apply IH. by inversion Hsorted.
  - inversion Hsorted as [|? ? _ Hhd]; subst.
    destruct l as [|y l], k as [|k]; simpl; constructor. by inversion Hhd.
Qed.

Lemma Sorted_drop {A : Type} (R : A -> A -> Prop) (l : list A) :
  forall k, Sorted R l -> Sorted R (drop k l).
Proof.
  induction l as [|x l IH]; intros [|k] Hsorted; simpl; try done.
  apply IH. by inversion Hsorted.
Qed.

Lemma limit_offset_sorted {A : Type} (R : A -> A -> Prop) lim off (l : list A) :
  Sorted R l -> Sorted R (limit_offset lim off l).
Proof.
  intros Hsorted. unfold limit_offset.
  destruct (lim <? 0); [|apply Sorted_take]; by apply Sorted_drop.
Qed.

Lemma limit_offset_subseteq {A : Type} lim off (l : list A) :
  limit_offset lim off l ⊆ l.
Proof.
  unfold limit_offset. destruct (lim <? 0).
  - apply subseteq_drop.
  - etrans; [apply subseteq_take|apply subseteq_drop].
Qed.




Lemma order_by_createdAt_desc_length rows :
  length (order_by_createdAt_desc rows) = length rows.
Proof.
  unfold order_by_createdAt_desc. induction rows as [|r rest IH]; simpl; [done|].
  rewrite <- IH. generalize (foldr insert_desc [] rest). intros l.
  induction l as [|r' l IHl]; simpl; [done|].
  destruct (Clock.text_lt _ _); simpl; by rewrite ?IHl.
Qed.



Lemma elem_of_values (db : table) r :
  r ∈ (map_to_list db).*2 <-> exists id, db !! id = Some r.
Proof.
  rewrite list_elem_of_fmap. split.
  - intros ([id r'] & -> & Hin). exists id. by apply elem_of_map_to_list.
  - intros [id Hid]. exists (id, r). split; [done|]. by apply elem_of_map_to_list.
Qed.


(** Texts SQLite takes for numbers, and texts it does not. *)
Example numeric_literal_cases :
  map numeric_literal ["2025"; " 12 "; "1e3"; "+.5"; "5."; "-5"; "1E-3"]
  = [true; true; true; true; true; true; true] /\
  map numeric_literal
    ["2024-01-15T10:00:00.000Z"; "2024-01-15 10:00:00"; "2024-01-15"; "0x10"; "1e"; ".";
     ""; "1_000"; "Infinity"; "1 2"]
  = [false; false; false; false; false; false; false; false; false; false].
Proof. split; reflexivity. Qed.




Lemma limit_offset_append {A : Type} (l1 l2 off : Z) (rows : list A) :
  0 <= l1 -> 0 <= l2 -> 0 <= off ->
  (limit_offset l1 off rows ++ limit_offset l2 (off + l1) rows)%list
  = limit_offset (l1 + l2) off rows.
Proof.
  intros H1 H2 Hoff. unfold limit_offset.
  destruct (Z.ltb_spec l1 0), (Z.ltb_spec l2 0), (Z.ltb_spec (l1 + l2) 0); try lia.
  rewrite Z2Nat.inj_add, <- drop_drop by lia.
  rewrite take_take_drop. f_equal. lia.
Qed.

(** X5.  Two consecutive pages of the same query make up the page of
    their joint size: the records at offset [off] limited to [l1],
    followed by those at offset [off + l1] limited to [l2], are the
    records at offset [off] limited to [l1 + l2]; nothing is skipped and
    nothing is repeated between pages of an unchanged table. *)
Theorem getNotifications_pages_compose (l1 l2 off : Z) type status recipient
  startDate endDate (db : table) :
  0 <= l1 -> 0 <= l2 -> 0 <= off ->
  let query := fun lim o =>
    getNotifications
      (mkOptions (Some lim) (Some o) type status recipient startDate endDate) db in
  (notifications (query l1 off) ++ notifications (query l2 (off + l1)))%list
  = notifications (query (l1 + l2) off).
Proof.
  intros H1 H2 Hoff query. subst query. unfold getNotifications. simpl.
  rewrite <- map_app. f_equal.
  unfold select_where, matches. simpl.
  by apply limit_offset_append.
Qed.

Lemma getNotifications_pages_compose_witness :
  let db : table :=
    {["a" := Sample.created_at "a" Sample.t0;
      "b" := Sample.created_at "b" Sample.t1;
      "c" := Sample.created_at "c" Sample.t2]} in
  let query := fun lim o =>
    getNotifications (mkOptions (Some lim) (Some o) None None None None None) db in
  (notifications (query 1 0) ++ notifications (query 2 1))%list
  = notifications (query 3 0) /\
  map Notification.id (notifications (query 3 0)) = ["c"; "b"; "a"].
Proof.
  split.
  - apply (getNotifications_pages_compose 1 2 0); lia.
  - vm_compute. reflexivity.
Defined.

(** ** The record store: failed records, purge, statistics *)

Lemma null_first_lt_asym a b :
  null_first_lt a b = true -> null_first_lt b a = false.
Proof.
  destruct a as [x|], b as [y|]; simpl; try done. apply text_lt_asym.
Qed.

Lemma insert_failedAt_desc_elem r rows x :
  x ∈ insert_failedAt_desc r rows <-> x = r \/ x ∈ rows.
Proof.
  induction rows as [|r' rest IH]; simpl.
  - rewrite list_elem_of_singleton, elem_of_nil. tauto.
  - destruct (null_first_lt _ _); rewrite !elem_of_cons; [rewrite IH|]; tauto.
Qed.

Lemma insert_failedAt_desc_length r rows :
  length (insert_failedAt_desc r rows) = S (length rows).
Proof.
  induction rows as [|r' rest IH]; simpl; [done|].
  destruct (null_first_lt _ _); simpl; by rewrite ?IH.
Qed.

Lemma insert_failedAt_desc_sorted r rows :
  Sorted not_failed_before rows -> Sorted not_failed_before (insert_failedAt_desc r rows).
Proof.
  induction rows as [|r' rest IH]; intros Hsorted; simpl.
  - by repeat constructor.
  - destruct (null_first_lt (Row.failedAt r) (Row.failedAt r')) eqn:Hlt.
    + inversion Hsorted as [|? ? Hrest Hhd]; subst. constructor; [by apply IH|].
      destruct rest as [|r'' rest]; simpl.
      * constructor. by apply null_first_lt_asym.
      * destruct (null_first_lt (Row.failedAt r) (Row.failedAt r'')); constructor.
        -- by inversion Hhd.
        -- by apply null_first_lt_asym.
    + constructor; [done|]. by constructor.
Qed.

Lemma failed_rows_sorted rows :
  Sorted not_failed_before (foldr insert_failedAt_desc [] rows).
Proof.
  induction rows as [|r rest IH]; simpl; [constructor|].
  by apply insert_failedAt_desc_sorted.
Qed.

Lemma failed_rows_elem rows x :
  x ∈ foldr insert_failedAt_desc [] rows <-> x ∈ rows.
Proof.
  induction rows as [|r rest IH]; simpl; [done|].
  rewrite insert_failedAt_desc_elem, IH, elem_of_cons. tauto.
Qed.

Lemma failed_rows_length rows :
  length (foldr insert_failedAt_desc [] rows) = length rows.
Proof.
  induction rows as [|r rest IH]; simpl; [done|].
  by rewrite insert_failedAt_desc_length, IH.
Qed.

(** X6.  For a non-negative limit, [getFailedNotifications] returns at
    most [limit] records, all of them rows of the table with status
    [failed], ordered so that no record failed before the one after it
    (records without [failedAt] sort below all others); when the table has
    no more than [limit] failed rows, every one of them is returned. *)
Theorem getFailedNotifications_lists_failed_rows limit (db : table) :
  0 <= default 100 limit ->
  exists rows,
    getFailedNotifications limit db = map Notification.of_row rows /\
    Z.of_nat (length rows) <= default 100 limit /\
    Sorted not_failed_before rows /\
    (forall r, r ∈ rows -> Row.status r = "failed" /\ exists id, db !! id = Some r) /\
    (Z.of_nat (length (filter (fun r => Row.status r = "failed") (map_to_list db).*2))
     <= default 100 limit ->
     forall id r, db !! id = Some r -> Row.status r = "failed" -> r ∈ rows).
Proof.
  intros Hlimit. eexists. split; [reflexivity|]. split; [|split; [|split]].
  - rewrite limit_offset_length by done. lia.
  - apply limit_offset_sorted, failed_rows_sorted.
  - intros r Hr. apply limit_offset_subseteq in Hr.
    rewrite failed_rows_elem, list_elem_of_filter, elem_of_values in Hr. tauto.
  - intros Hall id r Hid Hfailed. unfold limit_offset.
    destruct (Z.ltb_spec (default 100 limit) 0); [lia|]. simpl. rewrite drop_0.
    rewrite take_ge by (rewrite failed_rows_length; lia).
    rewrite failed_rows_elem, list_elem_of_filter, elem_of_values. eauto.
Qed.

Lemma getFailedNotifications_lists_failed_rows_witness :
  let db : table :=
    {["a" := Sample.row "a" "failed" (Some "boom") (Some "2024-01-15T10:00:01.000Z") None;
      "b" := Sample.row "b" "sent" None None (Some "2024-01-15T10:00:02.000Z");
      "c" := Sample.row "c" "failed" None None (Some "2024-01-15T10:00:03.000Z")]} in
  map Notification.id (getFailedNotifications None db) = ["a"; "c"] /\
  exists rows,
    getFailedNotifications None db = map Notification.of_row rows /\
    Z.of_nat (length rows) <= 100.
Proof.
  intros db. split; [vm_compute; reflexivity|].
  destruct (getFailedNotifications_lists_failed_rows None db) as (rows & Heq & Hlen & _).
  { vm_compute. discriminate. }
  exists rows. split; [exact Heq|exact Hlen].
Defined.


Lemma count_where_cons p r rows :
  count_where p (r :: rows) = (if p r then 1 else 0) + count_where p rows.
Proof.
  unfold count_where. rewrite filter_cons.
  destruct (p r) eqn:Hp.
  - rewrite decide_True by done. simpl length. lia.
  - rewrite decide_False by congruence. lia.
Qed.

Lemma count_where_bounds p rows :
  0 <= count_where p rows <= Z.of_nat (length rows).
Proof.
  unfold count_where. pose proof (length_filter (fun r => p r = true) rows). lia.
Qed.

Lemma status_counts_sum rows :
  Forall (fun r => Conditions.known_status (Row.status r)) rows ->
  count_where (fun r => String.eqb (Row.status r) "sent") rows
  + count_where (fun r => String.eqb (Row.status r) "failed") rows
  + count_where (fun r => String.eqb (Row.status r) "pending") rows
  + count_where (fun r => String.eqb (Row.status r) "processing") rows
  = Z.of_nat (length rows).
Proof.
  induction 1 as [|r rows Hknown _ IH].
  - reflexivity.
  - rewrite !count_where_cons. simpl length. rewrite Nat2Z.inj_succ, <- IH.
    unfold Conditions.known_status in Hknown. apply list_elem_of_In in Hknown.
    simpl in Hknown.
    destruct Hknown as [<-|[<-|[<-|[<-|[]]]]]; simpl; lia.
Qed.

(** X8.  In the result of [getNotificationStatistics] each of the four
    status counts lies between 0 and [total]; when every stored status is
    one of pending, processing, sent and failed, the four counts add up to
    [total]. *)
Theorem statistics_status_counts now timeframe (db : table) :
  let stats := getNotificationStatistics now timeframe db in
  (0 <= sent stats <= total stats) /\
  (0 <= failed stats <= total stats) /\
  (0 <= pending stats <= total stats) /\
  (0 <= processing stats <= total stats) /\
  (Conditions.statuses_known db ->
   sent stats + failed stats + pending stats + processing stats = total stats).
Proof.
  intros stats. subst stats. unfold getNotificationStatistics. simpl.
  repeat (split; [apply count_where_bounds|]).
  intros Hknown. apply status_counts_sum.
  apply Forall_forall. intros r Hr.
  apply list_elem_of_filter in Hr as [_ Hr]. apply elem_of_values in Hr as [id Hid].
  by apply (Hknown id).
Qed.

Lemma filter_all {A : Type} (P : A -> Prop) `{!forall x, Decision (P x)} (l : list A) :
  Forall P l -> filter P l = l.
Proof.
  induction 1 as [|x l Hx _ IH]; [done|].
  rewrite filter_cons, decide_True by done. by rewrite IH.
Qed.

Lemma created_on_start_day_in_window (created start : Z) (r : Row.t) :
  Row.createdAt r = Clock.toISOString created ->
  created / Clock.ms_per_day = start / Clock.ms_per_day ->
  in_window (Clock.sqlite_datetime start) r = true.
Proof.
  intros Hcreated Hday. unfold in_window.
  pose proof (created_on_cutoff_day_not_expired created start r Hcreated Hday) as Hnot.
  unfold expired in Hnot. by rewrite Hnot.
Qed.

(** X9.  The statistics window starts at a calendar day, not at an
    instant: with the one-hour timeframe, when every stored record was
    created on the UTC day on which the instant one hour ago falls, all of
    them are counted, however many hours ago they were created. *)
Theorem hourly_statistics_count_whole_day now (db : table) :
  (forall id r, db !! id = Some r ->
     exists created,
       Row.createdAt r = Clock.toISOString created /\
       created / Clock.ms_per_day = (now - 3600000) / Clock.ms_per_day) ->
  total (getNotificationStatistics now (Some "1h") db) = Z.of_nat (size db).
Proof.
  intros Hday. unfold getNotificationStatistics. simpl.
  rewrite filter_all.
  - by rewrite length_fmap, length_map_to_list.
  - apply Forall_forall. intros r Hr. apply elem_of_values in Hr as [id Hid].
    destruct (Hday id r Hid) as (created & Hcreated & Hsame).
    by apply (created_on_start_day_in_window created).
Qed.

Lemma hourly_statistics_count_whole_day_witness :
  let midnight := 1705276800000 in
  let created := midnight + 1000 in
  let now := midnight + 11 * 3600000 in
  let db : table := {["a" := Sample.created_at "a" created]} in
  created < now - 3600000 /\
  total (getNotificationStatistics now (Some "1h") db) = 1.
Proof.
  intros midnight created now db. split; [vm_compute; reflexivity|].
  apply (hourly_statistics_count_whole_day now db).
  intros id r Hr. exists created.
  destruct (decide (id = "a")) as [->|Hne].
  - vm_compute in Hr. injection Hr as <-. split; vm_compute; reflexivity.
  - subst db. rewrite lookup_singleton_ne in Hr by done. discriminate.
Defined.

(** ** The service: bulk submission, dispatch, ticks *)

Import DatabaseService NotificationService Processor.

Lemma accepted_error id result message :
  accepted [BulkResult.make id "error" result message] = [].
Proof. reflexivity. Qed.

Lemma accepted_queued id result message :
  accepted [BulkResult.make id "queued" result message]
  = [BulkResult.make id "queued" result message].
Proof. reflexivity. Qed.

Lemma bulk_item_effect now uuid calls d s :
  let '(entry, s') := bulk_item now uuid calls d s in
  map Notification.id (queue s')
  = (map Notification.id (queue s) ++ map BulkResult.id (accepted [entry]))%list /\
  size (db s') = (size (db s) + length (accepted [entry]))%nat /\
  providers s' = providers s /\ processing s' = processing s.
Proof.
  unfold bulk_item, sendNotification, saveNotification.
  cbn [Notification.recipient Notification.message Notification.type Notification.id
       bulk_notification].
  destruct (Request.recipient d), (Request.message d), (Request.type d);
    try (rewrite accepted_error; cbn [map length]; rewrite app_nil_r;
         split; [done|split; [lia|done]]).
  destruct (db s !! bulk_id uuid calls d) eqn:Hfresh.
  - rewrite accepted_error. cbn [map length]. rewrite app_nil_r.
    split; [done|split; [lia|done]].
  - rewrite accepted_queued. cbn [map length with_queue with_db queue db providers processing
                                  BulkResult.id].
    rewrite map_app. split; [done|]. split; [|done].
    rewrite map_size_insert_None by done. lia.
Qed.

Lemma accepted_app r1 r2 : accepted (r1 ++ r2) = (accepted r1 ++ accepted r2)%list.
Proof. unfold accepted. apply filter_app. Qed.

Lemma bulk_objects_effect now uuid notifications :
  forall calls s,
    let out := bulk_objects now uuid calls notifications [] s in
    map Notification.id (queue out.2)
    = (map Notification.id (queue s) ++ map BulkResult.id (accepted out.1))%list /\
    size (db out.2) = (size (db s) + length (accepted out.1))%nat /\
    providers out.2 = providers s /\ processing out.2 = processing s.
Proof.
  induction notifications as [|d rest IH]; intros calls s; simpl.
  - rewrite app_nil_r. split; [done|]. split; [unfold accepted; simpl; lia|done].
  - pose proof (bulk_item_effect now uuid calls d s) as Hitem.
    destruct (bulk_item now uuid calls d s) as [entry s'].
    destruct Hitem as (Hq & Hsize & Hp & Hproc).
    rewrite bulk_objects_results. simpl.
    destruct (IH (bulk_calls calls d) s') as (Hq' & Hsize' & Hp' & Hproc').
    change (entry :: (bulk_objects now uuid (bulk_calls calls d) rest [] s').1)
      with ([entry] ++ (bulk_objects now uuid (bulk_calls calls d) rest [] s').1)%list.
    rewrite accepted_app, map_app, length_app.
    rewrite Hq', Hq, Hsize', Hsize, Hp', Hp, Hproc', Hproc.
    rewrite <- app_assoc. split; [done|]. split; [lia|done].
Qed.

Lemma sendBulkNotifications_effect now uuid notifications s :
  let out := sendBulkNotifications now uuid notifications s in
  ((exists results, out.1 = Returned results)
   <-> Forall (fun element => nullish element = false) notifications) /\
  (forall results, out.1 = Returned results ->
     length results = length notifications /\
     map Notification.id (queue out.2)
     = (map Notification.id (queue s) ++ map BulkResult.id (accepted results))%list /\
     size (db out.2) = (size (db s) + length (accepted results))%nat) /\
  (forall message, out.1 = Threw message ->
     exists front element back,
       notifications = (map Obj front ++ element :: back)%list /\
       nullish element = true /\
       message = unreadable element "id" /\
       out.2 = (sendBulkNotifications now uuid (map Obj front) s).2).
Proof.
  intros out. subst out. unfold sendBulkNotifications.
  destruct (elements_split notifications)
    as [[objects ->]|(front & element & back & -> & Hnull)].
  - rewrite bulk_loop_objects. cbn [fst snd].
    destruct (bulk_objects_effect now uuid objects 0%nat s) as (Hq & Hsize & _).
    split; [|split].
    + split; [|eauto]. intros _. apply Forall_forall. intros element Helement.
      apply list_elem_of_fmap in Helement as (d & -> & _). reflexivity.
    + intros results [= <-]. rewrite bulk_objects_length, length_map. by repeat split.
    + discriminate.
  - rewrite (bulk_loop_nullish now uuid front element back Hnull). cbn [fst snd].
    split; [|split].
    + split; [by intros [results [=]]|]. intros Hall. exfalso.
      rewrite Forall_app, Forall_cons in Hall. destruct Hall as (_ & Hfalse & _).
      congruence.
    + discriminate.
    + intros message [= <-]. exists front, element, back.
      rewrite bulk_loop_objects. by repeat split.
Qed.


(** X10.  [sendBulkNotifications] resolves exactly when no element of the
    array is [null] or [undefined].  When it resolves, there is one entry
    per element, the queue is the old queue followed by exactly the
    notifications whose entries say [queued], in the order of those entries
    and under the ids the entries carry, and the store has grown by
    exactly that many rows; entries that say [error] left no trace in
    either.  When it rejects, the elements before the first [null] or
    [undefined] have been submitted all the same: the service is in the
    state the call for those elements alone leaves behind, and no entry
    reports it. *)
Theorem sendBulkNotifications_queues_what_it_reports now uuid notifications s :
  let out := sendBulkNotifications now uuid notifications s in
  ((exists results, out.1 = Returned results)
   <-> Forall (fun element => nullish element = false) notifications) /\
  (forall results, out.1 = Returned results ->
     length results = length notifications /\
     map Notification.id (queue out.2)
     = (map Notification.id (queue s) ++ map BulkResult.id (accepted results))%list /\
     size (db out.2) = (size (db s) + length (accepted results))%nat) /\
  (forall message, out.1 = Threw message ->
     exists front element back,
       notifications = (map Obj front ++ element :: back)%list /\
       nullish element = true /\
       message = unreadable element "id" /\
       out.2 = (sendBulkNotifications now uuid (map Obj front) s).2).
Proof. apply sendBulkNotifications_effect. Qed.

Example bulk_undefined_element :
  let first := Request.make (Some "a") (Some "a@example.com") (Some "hi") (Some "email") None None in
  let out := sendBulkNotifications Sample.t0 Sample.uuid [Obj first; Undefined]
               (constructor Sample.config Sample.clients_up ∅) in
  out.1 = Threw "Cannot read properties of undefined (reading 'id')" /\
  map Notification.id (queue out.2) = ["a"].
Proof. vm_compute. by split. Qed.

Lemma processNotification_row now n s r :
  db s !! Notification.id n = Some r ->
  exists r',
    (processNotification now n s).2 !! Notification.id n = Some r' /\
    terminal (Row.status r') /\
    Conditions.same_record r r' /\
    Row.retryCount r' = Row.retryCount r.
Proof.
  intros Hr.
  destruct (call_provider s now (Notification.set_status "processing" n))
    as [result|message] eqn:Hcall.
  - destruct (processNotification_returned_row now n s result r Hcall Hr)
      as (r' & Hr' & Hstatus & _ & _ & _ & _ & Hretry).
    exists r'. split; [exact Hr'|]. split.
    + rewrite Hstatus. unfold terminal.
      destruct (DeliveryResult.success result); apply list_elem_of_In; simpl; tauto.
    + split; [|exact Hretry].
      rewrite (processNotification_returned _ _ _ _ Hcall) in Hr'. simpl in Hr'.
      rewrite !updateNotification_lookup, Hr in Hr'. simpl in Hr'.
      injection Hr' as <-. unfold Conditions.same_record. simpl. repeat split; lia.
  - destruct (processNotification_threw_row now n s message r Hcall Hr)
      as (r' & Hr' & Hstatus & _ & _ & _ & _ & Hretry).
    exists r'. split; [exact Hr'|]. split.
    + rewrite Hstatus. unfold terminal. apply list_elem_of_In. simpl. tauto.
    + split; [|exact Hretry].
      rewrite (processNotification_threw _ _ _ _ Hcall) in Hr'. simpl in Hr'.
      rewrite !updateNotification_lookup, Hr in Hr'. simpl in Hr'.
      injection Hr' as <-. unfold Conditions.same_record. simpl. repeat split; lia.
Qed.

Lemma processNotification_other now n s id :
  id ≠ Notification.id n ->
  (processNotification now n s).2 !! id = db s !! id.
Proof.
  intros Hne. unfold processNotification.
  destruct (call_provider s now (Notification.set_status "processing" n)); simpl;
    by rewrite !updateNotification_lookup_ne.
Qed.

Lemma dispatch_member_db now n s :
  db (dispatch_member now n s).2 = (processNotification now n s).2.
Proof.
  unfold dispatch_member. by destruct (processNotification now n s) as [[? ?] ?].
Qed.

(** A record that is stored and terminal is still so after a member ran. *)
Lemma dispatch_member_keeps_terminal now n s id :
  (exists r, db s !! id = Some r /\ terminal (Row.status r)) ->
  exists r, db (dispatch_member now n s).2 !! id = Some r /\ terminal (Row.status r).
Proof.
  intros (r & Hr & Hterminal). rewrite dispatch_member_db.
  destruct (decide (id = Notification.id n)) as [->|Hne].
  - destruct (processNotification_row now n s r Hr) as (r' & Hr' & Ht & _). eauto.
  - rewrite processNotification_other by done. eauto.
Qed.

Lemma dispatch_batch_frame now batch :
  forall s,
    queue (dispatch_batch now batch s).2 = queue s /\
    processing (dispatch_batch now batch s).2 = processing s /\
    providers (dispatch_batch now batch s).2 = providers s.
Proof.
  induction batch as [|n rest IH]; intros s; simpl; [done|].
  destruct (dispatch_member now n s) as [c s'] eqn:Hmember.
  destruct (dispatch_batch now rest s') as [cs s''] eqn:Hbatch. simpl.
  destruct (IH s') as (Hq & Hp & Hpr). rewrite Hbatch in Hq, Hp, Hpr. simpl in *.
  destruct (dispatch_member_frame now n s) as (Hp' & Hq' & Hpr').
  rewrite Hmember in Hp', Hq', Hpr'. simpl in *. by rewrite Hq, Hp, Hpr.
Qed.

Lemma dispatch_batch_keeps_terminal now batch :
  forall s id,
    (exists r, db s !! id = Some r /\ terminal (Row.status r)) ->
    exists r, db (dispatch_batch now batch s).2 !! id = Some r /\ terminal (Row.status r).
Proof.
  induction batch as [|n rest IH]; intros s id Hterminal; simpl; [done|].
  pose proof (dispatch_member_keeps_terminal now n s id Hterminal) as Hstep.
  destruct (dispatch_member now n s) as [c s'].
  specialize (IH s' id Hstep). by destruct (dispatch_batch now rest s').
Qed.


Lemma dispatch_batch_terminal now batch :
  forall s n,
    n ∈ batch -> is_Some (db s !! Notification.id n) ->
    exists r, db (dispatch_batch now batch s).2 !! Notification.id n = Some r /\
              terminal (Row.status r).
Proof.
  induction batch as [|m rest IH]; intros s n Hin Hsome; [by apply elem_of_nil in Hin|].
  simpl. apply elem_of_cons in Hin as [->|Hin].
  - destruct Hsome as [r Hr].
    assert (Hstep : exists r', db (dispatch_member now m s).2 !! Notification.id m = Some r'
                               /\ terminal (Row.status r')).
    { rewrite dispatch_member_db.
      destruct (processNotification_row now m s r Hr) as (r' & Hr' & Ht & _). eauto. }
    destruct (dispatch_member now m s) as [c s'].
    pose proof (dispatch_batch_keeps_terminal now rest s' _ Hstep) as Hrest.
    by destruct (dispatch_batch now rest s').
  - assert (Hstep : is_Some (db (dispatch_member now m s).2 !! Notification.id n)).
    { rewrite dispatch_member_db. destruct Hsome as [r Hr].
      destruct (decide (Notification.id n = Notification.id m)) as [Heq|Hne].
      - rewrite Heq in *.
        destruct (processNotification_row now m s r Hr) as (r' & Hr' & _). eauto.
      - rewrite processNotification_other by done. eauto. }
    destruct (dispatch_member now m s) as [c s'].
    specialize (IH s' n Hin Hstep). by destruct (dispatch_batch now rest s').
Qed.

Lemma tick_effect config now s :
  processing s = false ->
  let k := splice_count (Config.BATCH_SIZE config) (length (queue s)) in
  let s' := (tick config now s).2 in
  processing s' = false /\
  queue s' = drop k (queue s) /\
  forall n, n ∈ take k (queue s) -> is_Some (db s !! Notification.id n) ->
    exists r, db s' !! Notification.id n = Some r /\ terminal (Row.status r).
Proof.
  intros Hidle k s'. subst s'. unfold tick.
  destruct (decide (queue s = [])) as [Hempty|Hnonempty].
  - rewrite tick_start_empty by done. simpl. split; [done|].
    rewrite Hempty. split; [by rewrite drop_nil|].
    intros n Hn. rewrite take_nil in Hn. by apply elem_of_nil in Hn.
  - rewrite tick_start_batch by done. fold k.
    set (s1 := make (db s) (providers s) (drop k (queue s)) true).
    destruct (dispatch_batch_frame now (take k (queue s)) s1) as (Hq & _ & _).
    pose proof (dispatch_batch_terminal now (take k (queue s)) s1) as Hterminal.
    destruct (dispatch_batch now (take k (queue s)) s1) as [cs s2]. simpl in *.
    split; [done|]. split; [done|].
    intros n Hn Hsome. by apply Hterminal.
Qed.

(** X11.  A tick run to its end on an idle service leaves no member of
    its batch in [processing]: every notification it took from the head of
    the queue whose row is in the store has a row with status [sent] or
    [failed] afterwards, the flag is cleared again, and the queue is the
    old queue without the batch. *)
Theorem tick_leaves_batch_terminal config now s :
  processing s = false ->
  let k := splice_count (Config.BATCH_SIZE config) (length (queue s)) in
  let s' := (tick config now s).2 in
  processing s' = false /\
  queue s' = drop k (queue s) /\
  forall n, n ∈ take k (queue s) -> is_Some (db s !! Notification.id n) ->
    exists r, db s' !! Notification.id n = Some r /\ terminal (Row.status r).
Proof. apply tick_effect. Qed.

Lemma tick_leaves_batch_terminal_witness :
  let s0 := constructor Sample.config Sample.clients_down ∅ in
  let s1 := (sendNotification Sample.t0 Sample.sms s0).2 in
  let s2 := (tick Sample.config Sample.t1 s1).2 in
  processing s2 = false /\ queue s2 = [] /\
  exists r, db s2 !! "n1" = Some r /\ terminal (Row.status r).
Proof.
  intros s0 s1 s2.
  destruct (tick_leaves_batch_terminal Sample.config Sample.t1 s1) as (Hp & Hq & Hall).
  { vm_compute. reflexivity. }
  split; [exact Hp|]. split; [exact Hq|].
  apply (Hall Sample.sms).
  - vm_compute. apply list_elem_of_In. simpl. tauto.
  - vm_compute. eauto.
Defined.




Lemma key_inj kind kind' : Providers.key kind = Providers.key kind' -> kind = kind'.
Proof. destruct kind, kind'; simpl; intros [=]; reflexivity. Qed.

Lemma processNotification_outcome now n s :
  (processNotification now n s).1.1
  = call_provider s now (Notification.set_status "processing" n).
Proof.
  unfold processNotification.
  by destruct (call_provider s now (Notification.set_status "processing" n)).
Qed.

(** X13.  In a service built by the constructor, a dispatch is rejected
    for want of a provider or because the provider's [send] threw:
    [processNotification] rejects exactly when the notification's type is
    not an enabled channel, or the [try] block of the channel's [send]
    ended with [null] or [undefined] -- which only a rejection of the
    external client with that value brings about.  Whatever else the
    client does, a dispatch to an enabled channel resolves. *)
Theorem constructed_service_rejects_iff config clients database now n :
  let s := constructor config clients database in
  let processing := Notification.set_status "processing" n in
  ((exists message, (processNotification now n s).1.1 = Threw message)
   <-> (providers s !! type_text n = None \/
        exists kind error,
          type_text n = Providers.key kind /\
          Providers.enabled kind config = true /\
          Providers.send_body kind config clients now processing = Threw error /\
          nullish error = true)) /\
  (forall kind error,
     Providers.send_body kind config clients now processing = Threw error ->
     nullish error = true ->
     Providers.client_rejects kind clients error).
Proof.
  intros s n1. split; [|intros kind error; apply send_body_nullish].
  rewrite processNotification_outcome. fold n1. unfold call_provider.
  change (type_text n1) with (type_text n).
  destruct (providers s !! type_text n) as [provider|] eqn:Hlookup.
  - simpl in Hlookup. apply initializeProviders_some in Hlookup as (kind & Hkey & Hon & ->).
    destruct (provider_send_caught kind config clients now n1) as (Hvalue & Hmessage & Hnull).
    split.
    + intros [message Hthrew]. right. exists kind.
      destruct (Providers.send_body kind config clients now n1) as [value|error] eqn:Hbody.
      * rewrite (Hvalue value eq_refl) in Hthrew. discriminate.
      * exists error. repeat split; try done.
        destruct error as [| |text]; try done.
        destruct (Hmessage text eq_refl) as (result & Hsent & _). congruence.
    + intros [Hnone|(kind' & error & Hkey' & _ & Hbody & Hnullish)]; [discriminate|].
      assert (kind' = kind) as -> by (apply key_inj; congruence).
      rewrite (Hnull error Hbody Hnullish). eauto.
  - split; [by left|]. intros _. case_bool_decide; eauto.
Qed.

Example webhook_dispatch_rejected_on_null :
  exists message,
    (processNotification Sample.t1 (Sample.request "w" "webhook" "https://example.com/hook")
       (constructor Sample.config Sample.clients_odd ∅)).1.1 = Threw message.
Proof. eexists. vm_compute. reflexivity. Qed.

(** ** The running process: what every reachable store satisfies *)

Import Conditions.





Lemma sendNotification_db now n s :
  db (sendNotification now n s).2 = (saveNotification now n (db s)).2.
Proof.
  unfold sendNotification.
  destruct (saveNotification now n (db s)) as [[key|message] db'] eqn:Hsave; simpl; [done|].
  unfold saveNotification in Hsave.
  destruct (Notification.recipient n), (Notification.message n), (Notification.type n),
    (db s !! Notification.id n); by inversion Hsave.
Qed.


Lemma bulk_item_db now uuid calls d s :
  db (bulk_item now uuid calls d s).2
  = (saveNotification now (bulk_notification now (bulk_id uuid calls d) d) (db s)).2.
Proof.
  unfold bulk_item. rewrite <- sendNotification_db.
  by destruct (sendNotification now _ s) as [[?|?] ?].
Qed.

(** What holds of the store before a bulk submission and is kept by every
    single insert holds after it. *)
Lemma bulk_loop_db_ind (P : table -> Prop) now uuid notifications :
  (forall n (db : table),
     Notification.status n = Some "pending" -> P db -> P (saveNotification now n db).2) ->
  forall calls results s,
    P (db s) -> P (db (bulk_loop now uuid calls notifications results s).2).
Proof.
  intros Hsave.
  induction notifications as [|[| |d] rest IH]; intros calls results s HP; try done.
  simpl. destruct (bulk_item now uuid calls d s) as [entry s'] eqn:Hitem.
  apply IH. replace s' with (bulk_item now uuid calls d s).2 by (by rewrite Hitem).
  rewrite bulk_item_db. by apply Hsave.
Qed.

Lemma retryFailedNotification_db now id s :
  db (retryFailedNotification now id s).2 = db s \/
  exists r, db s !! id = Some r /\ Row.status r = "failed" /\
    db (retryFailedNotification now id s).2
    = updateNotification now id [SetStatus "pending"; SetRetryCount (Row.retryCount r + 1)]
        (db s).
Proof.
  unfold retryFailedNotification, getNotification.
  destruct (db s !! id) as [r|] eqn:Hr; simpl; [|by left].
  case_bool_decide as Hstatus; simpl; [|by left].
  right. exists r. split; [done|]. split; [congruence|done].
Qed.






Lemma known_pending : known_status "pending".
Proof. unfold known_status. apply list_elem_of_In. simpl. tauto. Qed.

Lemma known_processing : known_status "processing".
Proof. unfold known_status. apply list_elem_of_In. simpl. tauto. Qed.

Lemma known_sent : known_status "sent".
Proof. unfold known_status. apply list_elem_of_In. simpl. tauto. Qed.

Lemma known_failed : known_status "failed".
Proof. unfold known_status. apply list_elem_of_In. simpl. tauto. Qed.

(** An update whose status assignments are all among the four values. *)
Lemma updateNotification_rows_sound now id updates (db : table) :
  (forall v, SetStatus v ∈ updates -> known_status v) ->
  rows_sound db -> rows_sound (updateNotification now id updates db).
Proof.
  intros Hupdates [Hkeyed Hknown].
  assert (Hfold : forall r, known_status (Row.status r) ->
    Row.id (foldl assign r updates) = Row.id r /\
    known_status (Row.status (foldl assign r updates))).
  { induction updates as [|a rest IH]; intros r Hr; simpl; [done|].
    destruct (IH (fun v Hv => Hupdates v (list_elem_of_further _ _ _ Hv)) (assign r a))
      as (-> & Hstatus).
    - destruct a; simpl; try done. apply Hupdates. apply list_elem_of_here.
    - split; [by destruct a|done]. }
  split; intros key r Hr.
  - destruct (decide (id = key)) as [<-|Hne].
    + rewrite updateNotification_lookup in Hr.
      destruct (db !! id) as [r0|] eqn:Hr0; [|discriminate]. injection Hr as <-.
      simpl. destruct (Hfold r0 (Hknown id r0 Hr0)) as (-> & _). by apply Hkeyed.
    + rewrite updateNotification_lookup_ne in Hr by done. by apply (Hkeyed key).
  - destruct (decide (id = key)) as [<-|Hne].
    + rewrite updateNotification_lookup in Hr.
      destruct (db !! id) as [r0|] eqn:Hr0; [|discriminate]. injection Hr as <-.
      simpl. by destruct (Hfold r0 (Hknown id r0 Hr0)) as (_ & ?).
    + rewrite updateNotification_lookup_ne in Hr by done. by apply (Hknown key).
Qed.

Lemma saveNotification_rows_sound now n (db : table) :
  js_or (Notification.status n) "pending" = "pending" ->
  rows_sound db -> rows_sound (saveNotification now n db).2.
Proof.
  intros Hstatus [Hkeyed Hknown]. unfold saveNotification.
  destruct (Notification.recipient n), (Notification.message n), (Notification.type n);
    try done.
  destruct (db !! Notification.id n) eqn:Hfresh; [done|]. simpl.
  split; intros key r Hr.
  - destruct (decide (Notification.id n = key)) as [<-|Hne].
    + rewrite lookup_insert_eq in Hr. by injection Hr as <-.
    + rewrite lookup_insert_ne in Hr by done. by apply (Hkeyed key).
  - destruct (decide (Notification.id n = key)) as [<-|Hne].
    + rewrite lookup_insert_eq in Hr. injection Hr as <-. simpl. rewrite Hstatus.
      apply known_pending.
    + rewrite lookup_insert_ne in Hr by done. by apply (Hknown key).
Qed.

Lemma deleteOldNotifications_rows_sound now days (db : table) :
  rows_sound db -> rows_sound (deleteOldNotifications now days db).2.
Proof.
  intros [Hkeyed Hknown]. split; intros key r Hr;
    apply deleteOldNotifications_lookup in Hr as [Hr _].
  - by apply (Hkeyed key).
  - by apply (Hknown key).
Qed.

Lemma processNotification_rows_sound now n s :
  rows_sound (db s) -> rows_sound (processNotification now n s).2.
Proof.
  intros Hsound. unfold processNotification.
  destruct (call_provider s now (Notification.set_status "processing" n)); simpl.
  - apply updateNotification_rows_sound; [|apply updateNotification_rows_sound; [|done]].
    + intros v Hv. apply list_elem_of_In in Hv. simpl in Hv.
      destruct Hv as [[= <-]|[[=]|[[=]|[]]]].
      destruct (DeliveryResult.success value); [apply known_sent|apply known_failed].
    + intros v Hv. apply list_elem_of_In in Hv. simpl in Hv.
      destruct Hv as [[= <-]|[]]. apply known_processing.
  - apply updateNotification_rows_sound; [|apply updateNotification_rows_sound; [|done]].
    + intros v Hv. apply list_elem_of_In in Hv. simpl in Hv.
      destruct Hv as [[= <-]|[[=]|[[=]|[]]]]. apply known_failed.
    + intros v Hv. apply list_elem_of_In in Hv. simpl in Hv.
      destruct Hv as [[= <-]|[]]. apply known_processing.
Qed.

Lemma retryFailedNotification_rows_sound now id s :
  rows_sound (db s) -> rows_sound (db (retryFailedNotification now id s).2).
Proof.
  intros Hsound.
  destruct (retryFailedNotification_db now id s) as [->|(r & _ & _ & ->)]; [done|].
  apply updateNotification_rows_sound; [|done].
  intros v Hv. apply list_elem_of_In in Hv. simpl in Hv.
  destruct Hv as [[= <-]|[[=]|[]]]. apply known_pending.
Qed.

Lemma step_rows_sound config e m :
  submits_pending e ->
  rows_sound (db (Machine.service m)) ->
  rows_sound (db (Machine.service (Machine.step config e m))).
Proof.
  intros Hsubmit Hsound.
  destruct e as [now n|now uuid ns|now id|now days| |now b i|b]; simpl.
  - rewrite sendNotification_db. by apply saveNotification_rows_sound.
  - unfold sendBulkNotifications. apply (bulk_loop_db_ind rows_sound); [|done].
    intros n db0 Hstatus Hdb0. apply saveNotification_rows_sound; [|done].
    by rewrite Hstatus.
  - by apply retryFailedNotification_rows_sound.
  - by apply deleteOldNotifications_rows_sound.
  - unfold tick_start. by destruct (_ || _).
  - destruct (Machine.in_flight m !! b) as [batch|]; [|done].
    destruct (batch !! i) as [n|]; [|done]. simpl.
    rewrite dispatch_member_db. by apply processNotification_rows_sound.
  - by destruct (Machine.in_flight m !! b) as [[|? ?]|].
Qed.

(** X15.  When every notification handed to [sendNotification] carries
    the status [pending] (as the HTTP layer and the bulk loop make it),
    then after any sequence of submissions, retries, purges, ticks and
    dispatches every row is stored under its own id and its status is one
    of pending, processing, sent and failed. *)
Theorem statuses_stay_among_the_four config events :
  forall m,
    Forall submits_pending events ->
    rows_sound (db (Machine.service m)) ->
    rows_sound (db (Machine.service (Machine.run config events m))).
Proof.
  induction events as [|e rest IH]; intros m Hevents Hsound; simpl; [done|].
  apply Forall_cons in Hevents as [He Hrest].
  apply IH; [done|]. by apply step_rows_sound.
Qed.

Lemma statuses_stay_among_the_four_witness :
  let m0 := Machine.init Sample.config Sample.clients_down ∅ in
  let m :=
    Machine.run Sample.config
      [Machine.Submit Sample.t0 Sample.sms; Machine.Tick;
       Machine.Member Sample.t1 0 0; Machine.Settle 0; Machine.Retry Sample.t2 "n1"] m0 in
  rows_sound (db (Machine.service m)) /\
  (Row.status <$> db (Machine.service m) !! "n1") = Some "pending".
Proof.
  intros m0 m. split; [|vm_compute; reflexivity].
  apply (statuses_stay_among_the_four Sample.config).
  - repeat constructor.
  - split; intros key r Hr; simpl in Hr; by rewrite lookup_empty in Hr.
Defined.

(** ** Overlapping retries *)

(** The two parts of a retry, run with nothing in between, are
    [retryFailedNotification]. *)
Lemma retryFailedNotification_phases now id s :
  retryFailedNotification now id s
  = match retry_read id s with
    | Returned notification =>
        (Returned (retry_write now id notification s).1,
         (retry_write now id notification s).2)
    | Threw message => (Threw message, s)
    end.
Proof.
  unfold retryFailedNotification, retry_read, retry_write.
  destruct (getNotification id (db s)) as [notification|]; [|reflexivity].
  by destruct (negb _).
Qed.

(** X16.  Two retries of one failed record that overlap -- the second
    reads the row before the first has written it -- are both accepted:
    each resolves with the same incremented [retryCount], the object of the
    record is on the queue twice, and the stored count has gone up by one,
    not by two.  A retry that starts after the first has finished is
    refused and changes nothing. *)
Theorem overlapping_retries_queue_record_twice now1 now2 id s r :
  db s !! id = Some r -> Row.status r = "failed" ->
  (exists n s2,
     overlapping_retries now1 now2 id s
     = (Returned (mkRetried true "Notification queued for retry" (Row.retryCount r + 1),
                  mkRetried true "Notification queued for retry" (Row.retryCount r + 1)),
        s2) /\
     queue s2 = (queue s ++ [n; n])%list /\
     Notification.id n = Row.id r /\
     exists r2,
       db s2 !! id = Some r2 /\
       Row.status r2 = "pending" /\
       Row.retryCount r2 = Row.retryCount r + 1) /\
  (forall now3,
     let s1 := (retryFailedNotification now1 id s).2 in
     retryFailedNotification now3 id s1
     = (Threw "Only failed notifications can be retried", s1)).
Proof.
  intros Hr Hfailed. split.
  - unfold overlapping_retries, retry_read, retry_write, getNotification.
    rewrite Hr. simpl. rewrite Hfailed. simpl.
    do 2 eexists. split; [reflexivity|]. simpl.
    split; [by rewrite <- app_assoc|]. split; [reflexivity|].
    rewrite !updateNotification_lookup, Hr. simpl. eexists. by repeat split.
  - intros now3 s1. subst s1.
    destruct (retryFailedNotification_failed now1 id s r Hr Hfailed)
      as (r' & n' & -> & Hpending & _).
    apply (retryFailedNotification_not_failed now3 id _ r').
    + simpl. apply lookup_insert_eq.
    + rewrite Hpending. discriminate.
Qed.

Lemma overlapping_retries_queue_record_twice_witness :
  let failed := Sample.row "n1" "failed" (Some "boom") (Some "2024-01-15T10:00:01.000Z") None in
  let s := make {["n1" := failed]} ∅ [] false in
  exists n s2,
    (overlapping_retries Sample.t2 Sample.t3 "n1" s).2 = s2 /\
    queue s2 = [n; n] /\
    (Row.retryCount <$> db s2 !! "n1") = Some 1.
Proof.
  intros failed s.
  destruct (overlapping_retries_queue_record_twice Sample.t2 Sample.t3 "n1" s failed)
    as ((n & s2 & Hrun & Hqueue & _ & r2 & Hr2 & _ & Hcount) & _).
  - reflexivity.
  - reflexivity.
  - exists n, s2. split; [by rewrite Hrun|]. split; [exact Hqueue|].
    rewrite Hr2. simpl. by rewrite Hcount.
Defined.

(** ** The SMS provider: message text and phone numbers *)

Import SMSUtilities.

Lemma utf16_length_append (a b : string) :
  Utf16.length (a +:+ b) = (Utf16.length a + Utf16.length b)%nat.
Proof. induction a as [|c a IH]; simpl; [done|]. rewrite IH. lia. Qed.

Lemma units_le (b : ascii) : (Utf16.units b <= 2)%nat.
Proof.
  unfold Utf16.units. destruct (Utf16.continuation b); [lia|].
  destruct (240 <=? N_of_ascii b)%N; lia.
Qed.

Lemma units_continuation (k : N) :
  Utf16.units (ascii_of_N (128 + k mod 64)) = 0%nat.
Proof.
  assert (Hk : (k mod 64 < 64)%N) by (apply N.mod_lt; discriminate).
  revert Hk. generalize (k mod 64)%N. intros m Hm.
  unfold Utf16.units, Utf16.continuation.
  rewrite N_ascii_embedding by lia.
  assert (Hlow : (128 <=? 128 + m)%N = true) by (apply N.leb_le; lia).
  assert (Hhigh : (128 + m <? 192)%N = true) by (apply N.ltb_lt; lia).
  by rewrite Hlow, Hhigh.
Qed.

Lemma length_high_surrogate b0 rest :
  Utf16.length (Utf16.high_surrogate b0 rest) = 1%nat.
Proof.
  unfold Utf16.high_surrogate. cbn [Utf16.length].
  rewrite !units_continuation. reflexivity.
Qed.

(** [substring(0, k)] has at most [k] units. *)
Lemma utf16_length_take (s : string) :
  forall k, (Utf16.length (Utf16.take k s) <= k)%nat.
Proof.
  induction s as [|b s IH]; intros k; simpl; [lia|].
  pose proof (units_le b) as Hle.
  destruct (Utf16.units b) as [|[|u]] eqn:Hunits.
  - simpl. rewrite Hunits. apply IH.
  - destruct k as [|k]; simpl; [lia|]. rewrite Hunits. specialize (IH k). lia.
  - destruct k as [|[|k]]; [simpl; lia| |].
    + rewrite length_high_surrogate. lia.
    + simpl. rewrite Hunits. specialize (IH k). lia.
Qed.

(** X17.  Whatever the notification, a text that [formatSMSMessage]
    returns is at most 1600 UTF-16 units long, the length JavaScript
    counts, so [validateSMSContent] never reports the length issue for it
    and finds it valid exactly when it has no non-ASCII character. *)
Theorem formatted_sms_fits config n message :
  SMSProvider.formatSMSMessage config n = Returned message ->
  (Utf16.length message <= 1600)%nat /\
  ~ ("Message exceeds maximum length for concatenated SMS"
       ∈ issues (validateSMSContent message)) /\
  valid (validateSMSContent message) = negb (has_non_ascii message).
Proof.
  intros Hformat.
  assert (Hlen : (Utf16.length message <= 1600)%nat).
  { unfold SMSProvider.formatSMSMessage in Hformat.
    destruct (match Notification.message n with Some _ => _ | None => _ end)
      as [built|]; [|discriminate].
    destruct (Nat.ltb_spec 1600 (Utf16.length built)); injection Hformat as <-; [|lia].
    rewrite utf16_length_append.
    pose proof (utf16_length_take built 1597).
    change (Utf16.length "...") with 3%nat. lia. }
  split; [exact Hlen|].
  unfold validateSMSContent. simpl.
  destruct (Nat.ltb_spec 1600 (Utf16.length message)) as [?|_]; [lia|]. simpl.
  destruct (has_non_ascii message); simpl; split; try done.
  - rewrite list_elem_of_singleton. discriminate.
  - apply not_elem_of_nil.
Qed.

Lemma formatted_sms_fits_witness :
  let urgent :=
    Notification.make "n1" (Some "+15551234567") (Some "héllo") (Some "sms") (Some "high")
      None None (Some "pending") None None None None None None None in
  exists message,
    SMSProvider.formatSMSMessage Sample.config urgent = Returned message /\
    Utf16.length message = 16%nat /\
    (Utf16.length message <= 1600)%nat.
Proof.
  intros urgent. eexists. split; [vm_compute; reflexivity|].
  split; [vm_compute; reflexivity|].
  eapply (formatted_sms_fits Sample.config urgent). vm_compute. reflexivity.
Defined.

(** The prefix of an urgent message is eleven units long: the sign is a
    surrogate pair. *)
Example urgent_prefix_units : Utf16.length "🚨 URGENT: " = 11%nat.
Proof. reflexivity. Qed.

(** A cut that falls inside a surrogate pair leaves its first unit. *)
Example take_splits_surrogate_pair :
  Utf16.length (Utf16.take 3 "ab🚨c") = 3%nat /\
  Utf16.take 4 "ab🚨c" = "ab🚨" /\
  Utf16.take 2 "ab🚨c" = "ab".
Proof. repeat split; reflexivity. Qed.

(** X18.  The outcome of the SMS provider's [send].  On a recipient that
    is not a valid phone number it is the failure "Invalid phone number
    format", whatever the gateway would do.  It reports success only when
    the number is valid, the text could be formatted and the gateway
    accepted exactly that text for that recipient from the configured
    sender; the [messageId] is then the gateway's [sid]. *)
Theorem sms_send_outcome config create now n result :
  SMSProvider.send config create now n = Returned result ->
  (SMSProvider.isValidPhoneNumber (Notification.recipient n) = false ->
   result = SMSProvider.send_failure now (Some "Invalid phone number format") /\
   forall create', SMSProvider.send config create' now n = Returned result) /\
  (DeliveryResult.success result = true ->
   SMSProvider.isValidPhoneNumber (Notification.recipient n) = true /\
   exists message receipt,
     SMSProvider.formatSMSMessage config n = Returned message /\
     create (SMSProvider.mkMessageOptions message (Config.TWILIO_PHONE_NUMBER config)
               (Notification.recipient n)
               (if truthy (meta n "mediaUrl") then meta n "mediaUrl" else None))
     = Returned receipt /\
     DeliveryResult.messageId result = SMSProvider.sid receipt).
Proof.
  unfold SMSProvider.send, SMSProvider.send_body.
  destruct (SMSProvider.isValidPhoneNumber (Notification.recipient n)); simpl.
  - destruct (SMSProvider.formatSMSMessage config n) as [message|reason]; simpl.
    + destruct (create _) as [receipt|[| |reason]] eqn:Hcreate; simpl; intros [= <-].
      * split; [discriminate|]. intros _. split; [done|]. by exists message, receipt.
      * split; discriminate.
    + intros [= <-]. split; discriminate.
  - intros [= <-]. split; [by intros _|discriminate].
Qed.

Lemma sms_send_outcome_witness :
  SMSProvider.send Sample.config (Clients.create Sample.clients_down) Sample.t1
    (Sample.request "n9" "sms" "555-1234")
  = Returned (SMSProvider.send_failure Sample.t1 (Some "Invalid phone number format")).
Proof.
  destruct (sms_send_outcome Sample.config (Clients.create Sample.clients_up) Sample.t1
              (Sample.request "n9" "sms" "555-1234")
              (SMSProvider.send_failure Sample.t1 (Some "Invalid phone number format"))
              eq_refl)
    as ([_ Hany] & _); [reflexivity|].
  apply Hany.
Defined.

(** X19.  [calculateSMSSegments] is 1 for a message of up to 160 UTF-16
    units, the length JavaScript counts, and otherwise the least number of
    153-unit segments that hold the message. *)
Theorem sms_segments_cover_message message :
  let len := Z.of_nat (Utf16.length message) in
  let k := calculateSMSSegments message in
  1 <= k /\
  (len <= 160 -> k = 1) /\
  (160 < len -> 153 * (k - 1) < len <= 153 * k).
Proof.
  intros len k. subst k. unfold calculateSMSSegments. fold len.
  destruct (Z.leb_spec len 160).
  - repeat split; lia.
  - assert (Hdiv : 153 * ((len + 152) / 153) <= len + 152 < 153 * ((len + 152) / 153) + 153).
    { pose proof (Z.div_mod (len + 152) 153 ltac:(lia)).
      pose proof (Z.mod_pos_bound (len + 152) 153 ltac:(lia)). lia. }
    repeat split; lia.
Qed.

(** The cases of tests/notification.test.js, and two messages whose
    characters take more than one byte each: a hundred two-byte letters are
    a hundred units, a hundred signs outside the Basic Multilingual Plane
    are two hundred. *)
Example calculateSMSSegments_tests :
  calculateSMSSegments "Short message" = 1 /\
  calculateSMSSegments (Sample.times 200 "A") = 2 /\
  calculateSMSSegments (Sample.times 100 "é") = 1 /\
  calculateSMSSegments (Sample.times 100 "🚨") = 2.
Proof. repeat split; vm_compute; reflexivity. Qed.

Lemma list_ascii_of_append (a b : string) :
  list_ascii_of_string (a +:+ b)
  = (list_ascii_of_string a ++ list_ascii_of_string b)%list.
Proof. induction a as [|c a IH]; simpl; [done|]. by rewrite IH. Qed.

Lemma digits_of_digits (phoneNumber : string) :
  List.filter SMSProvider.is_digit (digits_of phoneNumber) = digits_of phoneNumber /\
  forallb SMSProvider.is_digit (digits_of phoneNumber) = true.
Proof.
  unfold digits_of. induction (list_ascii_of_string phoneNumber) as [|c l [IH1 IH2]];
    simpl; [done|].
  destruct (SMSProvider.is_digit c) eqn:Hc; simpl; [|done].
  rewrite Hc, IH1, IH2. done.
Qed.

Lemma digits_of_prefixed (prefix : string) (phoneNumber : string) :
  digits_of (prefix +:+ string_of_list_ascii (digits_of phoneNumber))
  = (digits_of prefix ++ digits_of phoneNumber)%list.
Proof.
  unfold digits_of at 1. rewrite list_ascii_of_append, list_ascii_of_string_of_list_ascii.
  rewrite List.filter_app. fold (digits_of prefix).
  by destruct (digits_of_digits phoneNumber) as [-> _].
Qed.

(** X20.  [formatPhoneNumber] is idempotent: formatting a formatted
    number changes nothing.  A number with exactly ten digits, however it
    is punctuated, is formatted to [+1] followed by the digits, which
    [isValidPhoneNumber] accepts. *)
Theorem formatPhoneNumber_idempotent phoneNumber :
  formatPhoneNumber (formatPhoneNumber phoneNumber) = formatPhoneNumber phoneNumber /\
  (length (digits_of phoneNumber) = 10%nat ->
   formatPhoneNumber phoneNumber = "+1" +:+ string_of_list_ascii (digits_of phoneNumber) /\
   SMSProvider.isValidPhoneNumber (Some (formatPhoneNumber phoneNumber)) = true).
Proof.
  split.
  - destruct (Nat.eqb_spec (length (digits_of phoneNumber)) 10) as [Hten|Hnot].
    + assert (Hf : formatPhoneNumber phoneNumber
                   = "+1" +:+ string_of_list_ascii (digits_of phoneNumber)).
      { unfold formatPhoneNumber. by rewrite Hten. }
      rewrite Hf. unfold formatPhoneNumber. rewrite (digits_of_prefixed "+1").
      simpl length. rewrite Hten. reflexivity.
    + destruct (Nat.ltb_spec 10 (length (digits_of phoneNumber))) as [Hlong|Hshort];
        [destruct (startsWith_plus phoneNumber) eqn:Hplus|].
      * assert (Hf : formatPhoneNumber phoneNumber = phoneNumber).
        { unfold formatPhoneNumber.
          by rewrite (proj2 (Nat.eqb_neq _ _) Hnot), (proj2 (Nat.ltb_lt _ _) Hlong), Hplus. }
        by rewrite !Hf.
      * assert (Hf : formatPhoneNumber phoneNumber
                     = "+" +:+ string_of_list_ascii (digits_of phoneNumber)).
        { unfold formatPhoneNumber.
          by rewrite (proj2 (Nat.eqb_neq _ _) Hnot), (proj2 (Nat.ltb_lt _ _) Hlong), Hplus. }
        rewrite Hf. unfold formatPhoneNumber. rewrite (digits_of_prefixed "+"). simpl app.
        rewrite (proj2 (Nat.eqb_neq _ _) Hnot), (proj2 (Nat.ltb_lt _ _) Hlong).
        reflexivity.
      * assert (Hf : formatPhoneNumber phoneNumber = phoneNumber).
        { unfold formatPhoneNumber.
          by rewrite (proj2 (Nat.eqb_neq _ _) Hnot), (proj2 (Nat.ltb_ge _ _) Hshort). }
        by rewrite !Hf.
  - intros Hten.
    assert (Hf : formatPhoneNumber phoneNumber
                 = "+1" +:+ string_of_list_ascii (digits_of phoneNumber)).
    { unfold formatPhoneNumber. by rewrite Hten. }
    split; [exact Hf|]. rewrite Hf. unfold SMSProvider.isValidPhoneNumber.
    rewrite list_ascii_of_append, list_ascii_of_string_of_list_ascii.
    cbn [list_ascii_of_string app].
    destruct (digits_of_digits phoneNumber) as [_ ->]. rewrite Hten. reflexivity.
Qed.

Example formatPhoneNumber_examples :
  formatPhoneNumber "(555) 123-4567" = "+15551234567" /\
  formatPhoneNumber "15551234567" = "+15551234567" /\
  formatPhoneNumber "+15551234567" = "+15551234567" /\
  formatPhoneNumber "12345" = "12345".
Proof. repeat split; reflexivity. Qed.

(** ** The HTTP routes *)

Import Server.

(** X21.  [POST /api/notifications/send] answers 400 exactly when
    recipient, message or type is missing or empty, and then stores and
    queues nothing.  Otherwise it answers 200 with status [queued], the
    notification is at the tail of the queue and the status route answers
    200 for the new id with a [pending] record holding the submitted
    recipient, message and type -- unless the generated id is already
    stored, in which case it answers 500 and changes nothing. *)
Theorem post_send_validates_and_queues now uuid b s :
  let response := (post_send now uuid b s).1 in
  let s' := (post_send now uuid b s).2 in
  let complete :=
    truthy (Request.recipient b) && truthy (Request.message b) && truthy (Request.type b) in
  (Server.status response = 400 <-> complete = false) /\
  (Server.status response ≠ 200 -> s' = s) /\
  (complete = true -> is_Some (db s !! uuid) -> Server.status response = 500) /\
  (complete = true -> db s !! uuid = None ->
   response = mkResponse 200 (SendBody uuid "queued") /\
   map Notification.id (queue s') = (map Notification.id (queue s) ++ [uuid])%list /\
   exists n,
     get_status uuid s' = mkResponse 200 (StatusBody n) /\
     Notification.status n = Some "pending" /\
     Notification.recipient n = Request.recipient b /\
     Notification.message n = Request.message b /\
     Notification.type n = Request.type b).
Proof.
  intros response s' complete. subst response s' complete. unfold post_send.
  destruct (Request.recipient b) as [recipient|] eqn:Hr; simpl;
    [destruct (String.eqb recipient ""); simpl|];
    try (split; [done|]; split; [done|]; split; discriminate).
  destruct (Request.message b) as [message|] eqn:Hm; simpl;
    [destruct (String.eqb message ""); simpl|];
    try (split; [done|]; split; [done|]; split; discriminate).
  destruct (Request.type b) as [type|] eqn:Ht; simpl;
    [destruct (String.eqb type ""); simpl|];
    try (split; [done|]; split; [done|]; split; discriminate).
  unfold sendNotification, saveNotification. simpl.
  destruct (db s !! uuid) as [existing|] eqn:Hid; simpl.
  - split; [split; discriminate|]. split; [done|]. split; [done|]. discriminate.
  - split; [split; discriminate|]. split; [done|]. split; [by intros _ [? [=]]|].
    intros _ _. split; [done|]. split; [by rewrite map_app|].
    unfold get_status, getNotificationStatus, getNotification. simpl.
    rewrite lookup_insert_eq. simpl. eexists. split; [reflexivity|]. done.
Qed.

(** X22.  [POST /api/notifications/bulk-send] answers 400, and leaves the
    service alone, for a body without an array.  For an array it answers
    200 exactly when no element is [null] or [undefined]; [totalSent] is
    then the number of elements, whether they were accepted or not, while
    the queue grows by the number of entries marked [queued].  For an array
    with such an element it answers 500 with the [TypeError]'s message,
    and the elements before the first such element have been submitted all
    the same. *)
Theorem post_bulk_send_counts_every_request now uuid notifications s :
  let out := post_bulk_send now uuid (Some notifications) s in
  post_bulk_send now uuid None s
  = (mkResponse 400 (ErrorBody "notifications array is required" None), s) /\
  (Server.status out.1 = 200
   <-> Forall (fun element => nullish element = false) notifications) /\
  (Server.status out.1 = 200 ->
   exists results,
     out.1 = mkResponse 200 (BulkBody (Z.of_nat (length notifications)) results) /\
     length results = length notifications /\
     length (queue out.2) = (length (queue s) + length (accepted results))%nat /\
     (length (accepted results) <= length notifications)%nat) /\
  (forall front element back,
     notifications = (map Obj front ++ element :: back)%list ->
     nullish element = true ->
     out.1 = mkResponse 500
               (ErrorBody "Internal server error" (Some (unreadable element "id"))) /\
     out.2 = (post_bulk_send now uuid (Some (map Obj front)) s).2).
Proof.
  intros out. subst out. split; [done|]. unfold post_bulk_send.
  destruct (sendBulkNotifications_effect now uuid notifications s)
    as (Hiff & Hresolved & Hrejected).
  destruct (sendBulkNotifications now uuid notifications s) as [[results|message] s']
    eqn:Hbulk; cbn [fst snd] in *.
  - destruct (Hresolved results eq_refl) as (Hlen & Hqueue & _).
    split; [|split].
    + split; [|done]. intros _. apply Hiff. eauto.
    + intros _. exists results. rewrite Hlen. split; [done|]. split; [done|]. split.
      * apply (f_equal length) in Hqueue. by rewrite !length_app, !length_map in Hqueue.
      * rewrite <- Hlen. unfold accepted. apply length_filter.
    + intros front element back -> Hnull. exfalso.
      assert (Hall : Forall (fun element => nullish element = false)
                       (map Obj front ++ element :: back)) by (apply Hiff; eauto).
      rewrite Forall_app, Forall_cons in Hall. destruct Hall as (_ & Hfalse & _).
      congruence.
  - split; [|split].
    + split; [discriminate|]. intros Hall. apply Hiff in Hall as [results [=]].
    + discriminate.
    + intros front element back -> Hnull.
      unfold sendBulkNotifications in *.
      rewrite (bulk_loop_nullish now uuid front element back Hnull) in Hbulk.
      injection Hbulk as <- <-. rewrite bulk_loop_objects. done.
Qed.

Example post_bulk_send_null_element :
  let first := Request.make (Some "a") (Some "a@example.com") (Some "hi") (Some "email") None None in
  let out := post_bulk_send Sample.t0 Sample.uuid (Some [Obj first; Null])
               (constructor Sample.config Sample.clients_up ∅) in
  out.1 = mkResponse 500
            (ErrorBody "Internal server error"
               (Some "Cannot read properties of null (reading 'id')")) /\
  map Notification.id (queue out.2) = ["a"].
Proof. vm_compute. by split. Qed.

(** X23.  The two submission routes disagree on an empty recipient: the
    send route refuses a request whose recipient is the empty text, the
    bulk route stores and queues the same request. *)
Theorem empty_recipient_passes_bulk_route now uuid uuids d s :
  Request.recipient d = Some "" ->
  is_Some (Request.message d) -> is_Some (Request.type d) ->
  db s !! bulk_id uuids 0 d = None ->
  Server.status (post_send now uuid d s).1 = 400 /\
  exists entry s',
    post_bulk_send now uuids (Some [Obj d]) s
    = (mkResponse 200 (BulkBody 1 [entry]), s') /\
    BulkResult.status entry = "queued" /\
    (Row.recipient <$> db s' !! bulk_id uuids 0 d) = Some "" /\
    map Notification.id (queue s')
    = (map Notification.id (queue s) ++ [bulk_id uuids 0 d])%list.
Proof.
  intros Hr [message Hm] [type Ht] Hfresh. split.
  - unfold post_send. by rewrite Hr.
  - unfold post_bulk_send, sendBulkNotifications. simpl.
    unfold bulk_item, sendNotification, saveNotification. simpl.
    rewrite Hr, Hm, Ht, Hfresh. simpl. do 2 eexists. split; [reflexivity|].
    simpl. rewrite lookup_insert_eq, map_app. done.
Qed.

Lemma empty_recipient_passes_bulk_route_witness :
  let d := Request.make (Some "e1") (Some "") (Some "hi") (Some "email") None None in
  let s := constructor Sample.config Sample.clients_up ∅ in
  Server.status (post_send Sample.t0 "u1" d s).1 = 400 /\
  exists entry s',
    post_bulk_send Sample.t0 Sample.uuid (Some [Obj d]) s
    = (mkResponse 200 (BulkBody 1 [entry]), s') /\
    BulkResult.status entry = "queued".
Proof.
  intros d s.
  destruct (empty_recipient_passes_bulk_route Sample.t0 "u1" Sample.uuid d s)
    as (H400 & entry & s' & Hbulk & Hstatus & _).
  - reflexivity.
  - eexists. reflexivity.
  - eexists. reflexivity.
  - vm_compute. reflexivity.
  - split; [exact H400|]. exists entry, s'. split; [exact Hbulk|exact Hstatus].
Defined.

(** ** From the queue to a terminal status *)







(** X25.  Dispatching a notification whose row is no longer in the store
    (it was purged while it waited in the queue) still calls the provider
    and leaves the store exactly as it was: no row is created and no
    outcome is recorded. *)
Theorem dispatch_of_missing_row_writes_nothing now n s :
  db s !! Notification.id n = None ->
  (processNotification now n s).2 = db s /\
  (processNotification now n s).1.1
  = call_provider s now (Notification.set_status "processing" n).
Proof.
  intros Hnone. unfold processNotification.
  destruct (call_provider s now (Notification.set_status "processing" n)); simpl;
    rewrite !updateNotification_absent; try done;
    by rewrite updateNotification_absent.
Qed.

Lemma dispatch_of_missing_row_writes_nothing_witness :
  let s0 := constructor Sample.config Sample.clients_up ∅ in
  let s1 := (sendNotification 1704067201000 (Sample.request "old" "email" "a@example.com")
               s0).2 in
  let purged := with_db ∅ s1 in
  (processNotification Sample.t1 (Sample.request "old" "email" "a@example.com") purged).2
  = ∅.
Proof.
  intros s0 s1 purged.
  apply (dispatch_of_missing_row_writes_nothing Sample.t1
           (Sample.request "old" "email" "a@example.com") purged).
  reflexivity.
Defined.

(** ** Provider results *)

Lemma bind_returned {E A B : Type} (c : Outcome E A) (k : A -> Outcome E B) r :
  bind c k = Returned r -> exists v, c = Returned v /\ k v = Returned r.
Proof. destruct c as [v|error]; simpl; [eauto|discriminate]. Qed.

Lemma send_body_result kind config clients now n value :
  Providers.send_body kind config clients now n = Returned value ->
  DeliveryResult.success value = true /\
  DeliveryResult.error value = None /\
  DeliveryResult.provider value = Providers.key kind.
Proof.
  destruct kind; simpl.
  - unfold EmailProvider.send_body. intros Hbody.
    apply bind_returned in Hbody as (info & _ & [= <-]). done.
  - unfold SMSProvider.send_body.
    destruct (negb _); [discriminate|]. intros Hbody.
    apply bind_returned in Hbody as (message & _ & Hbody).
    apply bind_returned in Hbody as (result & _ & [= <-]). done.
  - unfold PushProvider.send_body. intros Hbody.
    apply bind_returned in Hbody as (response & _ & [= <-]). done.
  - unfold WebhookProvider.send_body. intros Hbody.
    apply bind_returned in Hbody as (response & _ & [= <-]). done.
Qed.

Lemma send_result_shape kind config clients now n result :
  Providers.send kind config clients now n = Returned result ->
  DeliveryResult.provider result = Providers.key kind /\
  (DeliveryResult.success result = true ->
   DeliveryResult.error result = None /\
   Providers.send_body kind config clients now n = Returned result) /\
  (DeliveryResult.success result = false ->
   Providers.send_body kind config clients now n
   = Threw (Obj (DeliveryResult.error result))).
Proof.
  intros Hsend.
  destruct (provider_send_caught kind config clients now n) as (Hvalue & Hmessage & Hnull).
  destruct (Providers.send_body kind config clients now n) as [value|error] eqn:Hbody.
  - rewrite (Hvalue value eq_refl) in Hsend. injection Hsend as <-.
    destruct (send_body_result _ _ _ _ _ _ Hbody) as (Htrue & Hnone & Hname).
    split; [done|]. split; [done|]. congruence.
  - destruct error as [| |message].
    + rewrite (Hnull Null eq_refl eq_refl) in Hsend. discriminate.
    + rewrite (Hnull Undefined eq_refl eq_refl) in Hsend. discriminate.
    + destruct (Hmessage message eq_refl) as (r & Hr & Hfalse & Herror & Hname).
      assert (result = r) as -> by congruence.
      split; [done|]. split; [congruence|]. intros _. by rewrite Herror.
Qed.

(** X26.  In every result a provider's [send] returns, [provider] is the
    name under which the provider is registered, and [success] and [error]
    exclude each other: a result with [success] true is the one the [try]
    block returned and has no [error]; a result with [success] false was
    built by the [catch] block, and its [error] is the [message] of what
    the [try] block threw -- no text when that value had none. *)
Theorem provider_result_success_excludes_error kind config clients now n result :
  Providers.send kind config clients now n = Returned result ->
  DeliveryResult.provider result = Providers.key kind /\
  (DeliveryResult.success result = true ->
   DeliveryResult.error result = None /\
   Providers.send_body kind config clients now n = Returned result) /\
  (DeliveryResult.success result = false ->
   Providers.send_body kind config clients now n
   = Threw (Obj (DeliveryResult.error result))).
Proof. apply send_result_shape. Qed.

Lemma provider_result_success_excludes_error_witness :
  exists result,
    Providers.send Providers.Webhook Sample.config Sample.clients_down Sample.t1
      (Sample.request "w" "webhook" "https://example.com/hook") = Returned result /\
    DeliveryResult.success result = false /\
    DeliveryResult.error result = Some "timeout of 5000ms exceeded" /\
    DeliveryResult.provider result = "webhook".
Proof.
  exists (WebhookProvider.send_failure (Some "timeout of 5000ms exceeded")).
  destruct (provider_result_success_excludes_error Providers.Webhook Sample.config
              Sample.clients_down Sample.t1
              (Sample.request "w" "webhook" "https://example.com/hook")
              (WebhookProvider.send_failure (Some "timeout of 5000ms exceeded")) eq_refl)
    as (Hname & _).
  split; [reflexivity|]. split; [reflexivity|]. split; [reflexivity|exact Hname].
Defined.

(** X27.  In a service built by the constructor, the result a dispatch
    resolves with names the channel of the notification: its [provider]
    member is the notification's type, so the [providerResponse] stored
    with a record always belongs to the record's own channel. *)
Theorem dispatch_result_names_the_channel config clients database now n result :
  (processNotification now n (constructor config clients database)).1.1 = Returned result ->
  DeliveryResult.provider result = type_text n.
Proof.
  unfold processNotification.
  destruct (call_provider (constructor config clients database) now
              (Notification.set_status "processing" n)) as [r|message] eqn:Hcall;
    simpl; [|discriminate].
  intros [= ->]. unfold call_provider in Hcall.
  change (type_text (Notification.set_status "processing" n)) with (type_text n) in Hcall.
  simpl in Hcall.
  destruct (initializeProviders config clients !! type_text n) as [provider|] eqn:Hlookup.
  - apply initializeProviders_some in Hlookup as (kind & Hkey & _ & ->).
    destruct (send_result_shape _ _ _ _ _ _ Hcall) as (Hname & _). congruence.
  - by destruct (bool_decide _).
Qed.

Lemma dispatch_result_names_the_channel_witness :
  exists result,
    (processNotification Sample.t1 Sample.sms
       (constructor Sample.config Sample.clients_up ∅)).1.1 = Returned result /\
    DeliveryResult.provider result = "sms".
Proof.
  eexists. split; [vm_compute; reflexivity|].
  apply (dispatch_result_names_the_channel Sample.config Sample.clients_up ∅
           Sample.t1 Sample.sms).
  vm_compute. reflexivity.
Defined.

(** ** The recipient filter *)

Import DatabaseService DatabaseReports.

Lemma like_percent_cons pattern c text :
  like ("%"%char :: pattern) (c :: text)
  = like pattern (c :: text) || like ("%"%char :: pattern) text.
Proof. reflexivity. Qed.

Lemma like_percent_nil pattern :
  like ("%"%char :: pattern) [] = like pattern [].
Proof. simpl. by rewrite orb_false_r. Qed.

Lemma like_percent pattern text :
  like ("%"%char :: pattern) text = true
  <-> exists k, like pattern (drop k text) = true.
Proof.
  induction text as [|c text IH].
  - rewrite like_percent_nil. split; [by exists 0%nat|]. intros [k Hk].
    by rewrite drop_nil in Hk.
  - rewrite like_percent_cons, orb_true_iff, IH. split.
    + intros [Hhere|[k Hk]]; [by exists 0%nat|by exists (S k)].
    + intros [[|k] Hk]; [by left|right; by exists k].
Qed.

Lemma like_literal_cons c pattern text :
  literal c = true ->
  like (c :: pattern) text
  = match text with
    | [] => false
    | d :: text' => Ascii.eqb (lower c) (lower d) && like pattern text'
    end.
Proof.
  unfold literal. intros Hc. apply andb_true_iff in Hc as [Hp Hu].
  apply negb_true_iff in Hp, Hu. simpl. rewrite Hp.
  destruct text as [|d text]; [done|]. by rewrite Hu.
Qed.

Lemma like_literal_prefix prefix :
  forallb literal prefix = true ->
  forall pattern text,
    like (prefix ++ pattern) text = true
    <-> exists matched rest,
          text = (matched ++ rest)%list /\ same_text_nocase matched prefix /\
          like pattern rest = true.
Proof.
  induction prefix as [|c prefix IH]; intros Hliteral pattern text.
  - simpl. split.
    + intros Hlike. by exists [], text.
    + intros (matched & rest & -> & Hsame & Hlike).
      unfold same_text_nocase in Hsame. by destruct matched.
  - simpl in Hliteral. apply andb_true_iff in Hliteral as [Hc Hrest].
    simpl app. rewrite like_literal_cons by done.
    destruct text as [|d text].
    + split; [discriminate|]. intros (matched & rest & Htext & Hsame & _).
      unfold same_text_nocase in Hsame. destruct matched; [discriminate|discriminate].
    + rewrite andb_true_iff, (IH Hrest). split.
      * intros (Hcd & matched & rest & -> & Hsame & Hlike).
        exists (d :: matched), rest. split; [done|]. split; [|done].
        unfold same_text_nocase in *. simpl. apply Ascii.eqb_eq in Hcd. congruence.
      * intros (matched & rest & Htext & Hsame & Hlike).
        unfold same_text_nocase in Hsame.
        destruct matched as [|e matched]; [discriminate|].
        simpl in Htext, Hsame. injection Htext as -> ->. injection Hsame as He Hsame.
        split; [apply Ascii.eqb_eq; congruence|]. by exists matched, rest.
Qed.

(** X28.  For a filter text without [%] and [_], the recipient condition
    of [getNotifications] ([recipient LIKE '%text%']) holds exactly for
    the recipients that contain the text somewhere, compared without
    regard to the case of ASCII letters. *)
Theorem recipient_filter_is_substring_test filter recipient :
  forallb literal (list_ascii_of_string filter) = true ->
  sql_like ("%" +:+ filter +:+ "%") recipient = true
  <-> exists before found after,
        list_ascii_of_string recipient = (before ++ found ++ after)%list /\
        same_text_nocase found (list_ascii_of_string filter).
Proof.
  intros Hliteral. unfold sql_like.
  rewrite list_ascii_of_append. simpl list_ascii_of_string at 1. simpl app.
  rewrite list_ascii_of_append. simpl list_ascii_of_string at 2.
  rewrite like_percent. split.
  - intros (k & Hk). apply (like_literal_prefix _ Hliteral) in Hk
      as (found & after & Hdrop & Hsame & _).
    exists (take k (list_ascii_of_string recipient)), found, after.
    split; [|done]. by rewrite <- Hdrop, take_drop.
  - intros (before & found & after & -> & Hsame).
    exists (length before). rewrite drop_app_length.
    apply (like_literal_prefix _ Hliteral). exists found, after.
    split; [done|]. split; [done|].
    apply like_percent. exists (length after). by rewrite drop_all.
Qed.

Lemma recipient_filter_is_substring_test_witness :
  sql_like ("%" +:+ "Example" +:+ "%") "user@EXAMPLE.com" = true.
Proof.
  apply (recipient_filter_is_substring_test "Example" "user@EXAMPLE.com").
  - reflexivity.
  - exists (list_ascii_of_string "user@"), (list_ascii_of_string "EXAMPLE"),
      (list_ascii_of_string ".com"). split; reflexivity.
Defined.

(** The wildcards are not taken literally. *)
Example recipient_filter_wildcards :
  sql_like ("%" +:+ "_" +:+ "%") "a@b.c" = true /\
  sql_like ("%" +:+ "a_b" +:+ "%") "a@b.c" = true /\
  sql_like ("%" +:+ "a_b" +:+ "%") "a_b" = true.
Proof. repeat split; reflexivity. Qed.
